(** * GSTIN status tracking: refresh policy, fetch, validation

    A shallow embedding of
    [india_compliance/gst_india/doctype/gstin/gstin.py].

    The module is a handful of conditionals over dates and status strings
    wrapped in framework calls.  The framework objects it touches (settings
    document, TTL cache, document store, error log, message box) are kept in
    an explicit [world] record that every operation threads through; the
    three remote API clients and the helpers imported from
    [india_compliance.gst_india.utils] form the interface [Services]. *)

From stdpp Require Import gmap strings list fin_maps.
From Stdlib Require Import ZArith Lia.

Local Open Scope string_scope.
Local Open Scope Z_scope.

(** ** Calendar dates

    [frappe.utils.date_diff(a, b)] is [(getdate(a) - getdate(b)).days], and
    Python subtracts two [date] objects through their proleptic Gregorian
    ordinals.  Dates are compared field by field, as Python's [date] does. *)

Module Dates.

Record date := mkdate { year : Z; month : Z; day : Z }.

Definition is_leap (y : Z) : bool :=
  (y mod 4 =? 0) && (negb (y mod 100 =? 0) || (y mod 400 =? 0)).

Definition days_before_year (y : Z) : Z :=
  let y' := y - 1 in
  y' * 365 + y' / 4 - y' / 100 + y' / 400.

Definition days_in_month (y m : Z) : Z :=
  match m with
  | 1 => 31
  | 2 => if is_leap y then 29 else 28
  | 3 => 31
  | 4 => 30
  | 5 => 31
  | 6 => 30
  | 7 => 31
  | 8 => 31
  | 9 => 30
  | 10 => 31
  | 11 => 30
  | 12 => 31
  | _ => 0
  end.

Definition days_before_month_common (m : Z) : Z :=
  match m with
  | 1 => 0
  | 2 => 31
  | 3 => 59
  | 4 => 90
  | 5 => 120
  | 6 => 151
  | 7 => 181
  | 8 => 212
  | 9 => 243
  | 10 => 273
  | 11 => 304
  | 12 => 334
  | _ => 0
  end.

Definition days_before_month (y m : Z) : Z :=
  days_before_month_common m + (if (2 <? m) && is_leap y then 1 else 0).

Definition ymd2ord (y m d : Z) : Z :=
  days_before_year y + days_before_month y m + d.

Definition toordinal (d : date) : Z := ymd2ord (year d) (month d) (day d).

(** The dates Python's [date] constructor accepts. *)
Definition valid_date (d : date) : bool :=
  (1 <=? year d) && (year d <=? 9999) &&
  (1 <=? month d) && (month d <=? 12) &&
  (1 <=? day d) && (day d <=? days_in_month (year d) (month d)).

(** [a < b] on dates: lexicographic on (year, month, day). *)
Definition date_ltb (a b : date) : bool :=
  (year a <? year b) ||
  ((year a =? year b) &&
   ((month a <? month b) ||
    ((month a =? month b) && (day a <? day b)))).

Definition date_eqb (a b : date) : bool :=
  (year a =? year b) && (month a =? month b) && (day a =? day b).

Definition date_leb (a b : date) : bool := date_ltb a b || date_eqb a b.

(** Ordinal of the day a timestamp (seconds since 1970-01-01) falls on. *)
Definition datetime_ordinal (secs : Z) : Z := 719163 + secs / 86400.

End Dates.
Export Dates.

(** ** Values exchanged with the framework *)

(** The translated, formatted texts the module shows or logs, one
    constructor per template with the values substituted into it. *)
Inductive message :=
| MsgRegistrationDateNotFound (gstin : option string)
| MsgRegisteredOn (registration_date : date) (gstin : option string)
| MsgCancelledOn (cancelled_date : option date) (gstin : option string)
| MsgStatusIs (status : option string) (gstin : option string)
| MsgTransporterNotActive (gstin : option string)
| MsgTransporterSeemsInactive (transporter_id : string)
| MsgInvalidGSTIN (gstin : string)
| MsgNameRequired.

(** Python exceptions, as far as the module tells them apart. *)
Inductive exn :=
| ValidationError (m : message)
| GSPServerError
| AttributeError (attribute : string)
| OtherError (name : string).

Definition is_GSPServerError (e : exn) : bool :=
  match e with GSPServerError => true | _ => false end.

Inductive log_body :=
| Body (m : message)
| Traceback (e : exn).

(** What a run leaves in the log, in the order it happens: the API
    requests sent, the entries of the error log, and a marker for every
    entry into [create_or_update_gstin_status] with the path it was asked
    to take. *)
Inductive event :=
| CallPublicAPI (gstin : string)
| CallEInvoiceAPI (company_gstin gstin : string)
| CallEWaybillAPI (company_gstin transporter_id : string)
| LogError (title : string) (body : log_body)
| Enter_create_or_update_gstin_status (gstin : string) (is_transporter_id : bool).

(** [is_blocked] holds the API's ["U"]/["B"] before a save and 0/1 after. *)
Inductive blocked :=
| BlkNone
| BlkStr (s : string)
| BlkInt (n : Z).

Record gstin_doc := {
  gstin : option string;
  status : option string;
  is_blocked : blocked;
  registration_date : option date;
  cancelled_date : option date;
  last_updated_on : option Z;
  transporter_id_status : option string
}.

(** Payloads of the three API sources; a missing key reads as [None]. *)
Record public_response := {
  pr_gstin : option string;
  rgdt : option string;
  cxdt : option string;
  sts : option string
}.

Record einvoice_response := {
  DtReg : option string;
  DtDReg : option string;
  Status : option string;
  BlkStatus : option string
}.

Record ewaybill_response := { transin : option string }.

(** The canonical [frappe._dict] handed to [doc.update].  For every field
    but [gstin] the outer [option] says whether the key is present. *)
Record response_dict := {
  r_gstin : option string;
  r_registration_date : option (option date);
  r_cancelled_date : option (option date);
  r_status : option (option string);
  r_is_blocked : option (option string);
  r_transporter_id_status : option (option string)
}.

Record credential := { service : string; cred_gstin : option string }.

Record gst_settings := {
  validate_gstin_status : bool;
  sandbox_mode : bool;
  gstin_status_refresh_interval : Z;
  enable_api : bool;
  enable_e_invoice : bool;
  enable_e_waybill : bool;
  credentials : list credential
}.

(** A cache entry written by [set_value(key, value, expires_in_sec=ttl)]. *)
Record cache_entry := {
  ce_value : bool;
  ce_set_at : Z;
  ce_expires_in_sec : Z
}.

Record world := {
  w_now : Z;                                   (* clock, in seconds *)
  w_settings : gst_settings;                   (* "GST Settings" *)
  w_cache : gmap string cache_entry;           (* frappe.cache *)
  w_db : gmap string gstin_doc;                (* doctype "GSTIN" *)
  w_log : list event;
  w_message_log : list (message * string)      (* frappe.local.message_log *)
}.

(** An API call takes some time and then raises, or returns a payload
    ([None] for an empty one). *)
Record api_reply (A : Type) := {
  reply_latency : nat;
  reply_result : exn + option A
}.
Arguments reply_latency {A} _.
Arguments reply_result {A} _.

(** What the module imports: the helpers of
    [india_compliance.gst_india.utils] and the API client classes. *)
Class Services := {
  (** [validate_gstin(gstin)]: [true] when it returns, [false] when it throws *)
  validate_gstin : string -> bool;
  (** [validate_gstin_check_digit(gstin, throw=False)] *)
  validate_gstin_check_digit : string -> bool;
  is_api_enabled : gst_settings -> bool;
  (** [parse_datetime(value, day_first=.., throw=False)] *)
  parse_datetime : bool -> option string -> option date;
  PublicAPI_get_gstin_info : Z -> string -> api_reply public_response;
  EInvoiceAPI_get_gstin_info : Z -> string -> string -> api_reply einvoice_response;
  EWaybillAPI_get_transporter_details :
    Z -> string -> string -> api_reply ewaybill_response
}.

(** ** Python truthiness and small helpers *)

Definition truthy_str (s : option string) : bool :=
  match s with
  | Some s => negb (String.eqb s "")
  | None => false
  end.

Definition str_is (s : option string) (lit : string) : bool :=
  match s with
  | Some s => String.eqb s lit
  | None => false
  end.

Fixpoint dict_get {V : Type} (d : list (string * V)) (k : string) : option V :=
  match d with
  | [] => None
  | (k', v) :: d' => if String.eqb k' k then Some v else dict_get d' k
  end.

Definition GSTIN_STATUS : list (string * string) :=
  [ ("ACT", "Active");
    ("CNL", "Cancelled");
    ("INA", "Inactive");
    ("PRO", "Provisional");
    ("SUS", "Suspended") ].

Definition GSTIN_BLOCK_STATUS : list (string * Z) := [ ("U", 0); ("B", 1) ].

(** ** The effect monad: state passing with exceptions *)

Inductive outcome (A : Type) :=
| Returned (a : A)
| Raised (e : exn).
Arguments Returned {A} _.
Arguments Raised {A} _.

Definition M (A : Type) : Type := world -> outcome A * world.

Definition ret {A} (a : A) : M A := fun w => (Returned a, w).

Definition raise {A} (e : exn) : M A := fun w => (Raised e, w).

Definition bind {A B} (m : M A) (k : A -> M B) : M B :=
  fun w =>
    match m w with
    | (Returned a, w') => k a w'
    | (Raised e, w') => (Raised e, w')
    end.

(** [try: m except Exception as e: handler e] *)
Definition try_except {A} (m : M A) (handler : exn -> M A) : M A :=
  fun w =>
    match m w with
    | (Returned a, w') => (Returned a, w')
    | (Raised e, w') => handler e w'
    end.

(** [try: m finally: cleanup]; the cleanup runs on return and on raise. *)
Definition try_finally {A} (m : M A) (cleanup : M unit) : M A :=
  fun w =>
    match m w with
    | (r, w') =>
        match cleanup w' with
        | (Returned _, w'') => (r, w'')
        | (Raised e, w'') => (Raised e, w'')
        end
    end.

Notation "'let*' x ':=' m 'in' k" := (bind m (fun x => k))
  (at level 10, x name, m at level 100, k at level 200).

Definition modify (f : world -> world) : M unit := fun w => (Returned tt, f w).

Definition reads {A} (f : world -> A) : M A := fun w => (Returned (f w), w).

Definition set_now (t : Z) (w : world) : world :=
  {| w_now := t; w_settings := w_settings w; w_cache := w_cache w;
     w_db := w_db w; w_log := w_log w; w_message_log := w_message_log w |}.

Definition set_cache (c : gmap string cache_entry) (w : world) : world :=
  {| w_now := w_now w; w_settings := w_settings w; w_cache := c;
     w_db := w_db w; w_log := w_log w; w_message_log := w_message_log w |}.

Definition set_db (d : gmap string gstin_doc) (w : world) : world :=
  {| w_now := w_now w; w_settings := w_settings w; w_cache := w_cache w;
     w_db := d; w_log := w_log w; w_message_log := w_message_log w |}.

Definition set_log (l : list event) (w : world) : world :=
  {| w_now := w_now w; w_settings := w_settings w; w_cache := w_cache w;
     w_db := w_db w; w_log := l; w_message_log := w_message_log w |}.

Definition set_message_log (l : list (message * string)) (w : world) : world :=
  {| w_now := w_now w; w_settings := w_settings w; w_cache := w_cache w;
     w_db := w_db w; w_log := w_log w; w_message_log := l |}.

Definition emit (ev : event) : M unit :=
  modify (fun w => set_log (w_log w ++ [ev]) w).

(** ** Framework primitives *)

(** [frappe.cache.get_value(key)]: the stored value while the entry lives. *)
Definition cache_get_value (w : world) (key : string) : bool :=
  match w_cache w !! key with
  | Some e => if w_now w <? ce_set_at e + ce_expires_in_sec e
              then ce_value e else false
  | None => false
  end.

(** [frappe.cache.set_value(key, value, expires_in_sec=ttl)] *)
Definition cache_set_value (key : string) (value : bool) (ttl : Z) : M unit :=
  modify (fun w =>
    set_cache (<[key := {| ce_value := value; ce_set_at := w_now w;
                           ce_expires_in_sec := ttl |}]> (w_cache w)) w).

(** [frappe.log_error(title=.., message=..)] *)
Definition log_error (title : string) (body : log_body) : M unit :=
  emit (LogError title body).

(** [frappe.msgprint(msg, indicator=..)] *)
Definition msgprint (m : message) (indicator : string) : M unit :=
  modify (fun w => set_message_log (w_message_log w ++ [(m, indicator)]) w).

(** [frappe.throw(msg)]: shows the message, then raises. *)
Definition frappe_throw {A} (m : message) : M A :=
  fun w => (Raised (ValidationError m),
            set_message_log (w_message_log w ++ [(m, "red")]) w).

(** [frappe.clear_last_message()] *)
Definition clear_last_message : M unit :=
  modify (fun w => set_message_log (removelast (w_message_log w)) w).

(** [getdate(d)] as an ordinal: today when [d] is empty. *)
Definition getdate_ordinal (w : world) (d : option date) : Z :=
  match d with
  | Some d => toordinal d
  | None => datetime_ordinal (w_now w)
  end.

(** [date_diff(end, start)] on dates *)
Definition date_diff (w : world) (string_ed_date string_st_date : option date) : Z :=
  getdate_ordinal w string_ed_date - getdate_ordinal w string_st_date.

(** [date_diff(get_datetime(), t)] for a stored timestamp [t] *)
Definition date_diff_now (w : world) (t : option Z) : Z :=
  datetime_ordinal (w_now w) -
  match t with
  | Some t => datetime_ordinal t
  | None => datetime_ordinal (w_now w)
  end.

(** Calling a remote API: the call is recorded, time passes, and the
    client raises or returns its payload. *)
Definition call_api {A} (ev : event) (reply : api_reply A) : M (option A) :=
  fun w =>
    let w' := set_now (w_now w + Z.of_nat (reply_latency reply))
                      (set_log (w_log w ++ [ev]) w) in
    match reply_result reply with
    | inl e => (Raised e, w')
    | inr r => (Returned r, w')
    end.

(** Attribute access on an API payload; on [None] Python raises. *)
Definition payload {A} (attribute : string) (r : option A) : M A :=
  match r with
  | Some r => ret r
  | None => raise (AttributeError attribute)
  end.

(** ** class GSTIN(Document) *)

Definition before_save (now : Z) (self : gstin_doc) : gstin_doc :=
  let status' :=
    match status self with
    | Some s => match dict_get GSTIN_STATUS s with
                | Some full => Some full
                | None => Some s
                end
    | None => None
    end in
  let is_blocked' :=
    match is_blocked self with
    | BlkStr s => match dict_get GSTIN_BLOCK_STATUS s with
                  | Some b => BlkInt b
                  | None => BlkInt 0
                  end
    | _ => BlkInt 0
    end in
  let cancelled_date' :=
    match cancelled_date self with
    | None => if str_is status' "Cancelled"
              then registration_date self else None
    | Some d => Some d
    end in
  {| gstin := gstin self;
     status := status';
     is_blocked := is_blocked';
     registration_date := registration_date self;
     cancelled_date := cancelled_date';
     last_updated_on := Some now;
     transporter_id_status := transporter_id_status self |}.

(** [frappe.new_doc("GSTIN")] *)
Definition new_doc : gstin_doc :=
  {| gstin := None; status := None; is_blocked := BlkNone;
     registration_date := None; cancelled_date := None;
     last_updated_on := None; transporter_id_status := None |}.

(** [doc.update(response)]: every key present in the dict is assigned. *)
Definition doc_update (doc : gstin_doc) (with_gstin : bool) (r : response_dict)
  : gstin_doc :=
  {| gstin := if with_gstin then r_gstin r else gstin doc;
     status := default (status doc) (r_status r);
     is_blocked := match r_is_blocked r with
                   | Some (Some s) => BlkStr s
                   | Some None => BlkNone
                   | None => is_blocked doc
                   end;
     registration_date := default (registration_date doc) (r_registration_date r);
     cancelled_date := default (cancelled_date doc) (r_cancelled_date r);
     last_updated_on := last_updated_on doc;
     transporter_id_status :=
       default (transporter_id_status doc) (r_transporter_id_status r) |}.

(** [doc.save(ignore_permissions=True)]: runs [before_save] and writes the
    record under its name, the [gstin] field; a document without a name
    cannot be stored. *)
Definition doc_save (doc : gstin_doc) : M gstin_doc :=
  fun w =>
    let doc' := before_save (w_now w) doc in
    match gstin doc' with
    | Some name =>
        if truthy_str (Some name)
        then (Returned doc', set_db (<[name := doc']> (w_db w)) w)
        else frappe_throw MsgNameRequired w
    | None => frappe_throw MsgNameRequired w
    end.

(** ** Module functions *)

Section Gstin.
Context `{Services}.

Definition get_formatted_response (response : public_response) : response_dict :=
  {| r_gstin := pr_gstin response;
     r_registration_date := Some (parse_datetime true (rgdt response));
     r_cancelled_date := Some (parse_datetime true (cxdt response));
     r_status := Some (sts response);
     r_is_blocked := None;
     r_transporter_id_status := None |}.

Fixpoint first_credential (rows : list credential) : option string :=
  match rows with
  | [] => None
  | row :: rows' =>
      if String.eqb (service row) "e-Waybill / e-Invoice"
      then cred_gstin row
      else first_credential rows'
  end.

Definition get_company_gstin (w : world) : option string :=
  let gst_settings := w_settings w in
  if negb (enable_e_invoice gst_settings) then None
  else first_credential (credentials gst_settings).

Definition _get_gstin_info (gstin : string) (response : option public_response)
    (use_public_api : bool) : M (option response_dict) :=
  match response with
  | Some response => ret (Some (get_formatted_response response))
  | None =>
      let* _ := (if validate_gstin gstin then ret tt
                 else frappe_throw (MsgInvalidGSTIN gstin)) in
      try_finally
        (try_except
           (let* server_error := reads (fun w => cache_get_value w "gst_server_error") in
            if server_error then ret None
            else
              let* company_gstin := reads get_company_gstin in
              if use_public_api || negb (truthy_str company_gstin) then
                let* now := reads w_now in
                let* response :=
                  call_api (CallPublicAPI gstin) (PublicAPI_get_gstin_info now gstin) in
                let* response := payload "gstin" response in
                ret (Some (get_formatted_response response))
              else
                let company_gstin := default "" company_gstin in
                let* now := reads w_now in
                let* response :=
                  call_api (CallEInvoiceAPI company_gstin gstin)
                           (EInvoiceAPI_get_gstin_info now company_gstin gstin) in
                let* response := payload "DtReg" response in
                ret (Some
                  {| r_gstin := Some gstin;
                     r_registration_date := Some (parse_datetime false (DtReg response));
                     r_cancelled_date := Some (parse_datetime false (DtDReg response));
                     r_status := Some (Status response);
                     r_is_blocked := Some (BlkStatus response);
                     r_transporter_id_status := None |}))
           (fun e =>
              let* _ := (if is_GSPServerError e
                         then cache_set_value "gst_server_error" true 60
                         else ret tt) in
              let* _ := log_error "Error fetching GSTIN status" (Traceback e) in
              let* _ := clear_last_message in
              ret None))
        (cache_set_value gstin true 180)
  end.

Definition _throw (throw : bool) (title : string) (m : message) : M unit :=
  if throw then frappe_throw m
  else log_error title (Body m).

Definition _validate_gstin_info (gstin_doc : option gstin_doc)
    (transaction_date : option date) (throw : bool) : M unit :=
  match gstin_doc, transaction_date with
  | Some gstin_doc, Some _ =>
      let _throw := _throw throw "Invalid Party GSTIN" in
      match registration_date gstin_doc with
      | None => _throw (MsgRegistrationDateNotFound (gstin gstin_doc))
      | Some registration_date =>
          let* before := reads (fun w =>
            date_diff w transaction_date (Some registration_date) <? 0) in
          if before then
            _throw (MsgRegisteredOn registration_date (gstin gstin_doc))
          else
            let* cancelled := reads (fun w =>
              str_is (status gstin_doc) "Cancelled" &&
              (0 <=? date_diff w transaction_date (cancelled_date gstin_doc))) in
            if cancelled then
              _throw (MsgCancelledOn (cancelled_date gstin_doc) (gstin gstin_doc))
            else if negb (str_is (status gstin_doc) "Active" ||
                          str_is (status gstin_doc) "Cancelled") then
              _throw (MsgStatusIs (status gstin_doc) (gstin gstin_doc))
            else ret tt
      end
  | _, _ => ret tt
  end.

(** The callback is invoked as [callback(doc, transaction_date)], so
    [throw] keeps its default. *)
Definition _validate_gst_transporter_id_info (transporter_id_info : option gstin_doc)
    (throw : bool) : M unit :=
  match transporter_id_info with
  | None => ret tt
  | Some transporter_id_info =>
      if negb (str_is (transporter_id_status transporter_id_info) "Active") then
        _throw throw "Invalid Transporter ID"
          (MsgTransporterNotActive (gstin transporter_id_info))
      else ret tt
  end.

Definition is_status_refresh_required (w : world) (gstin : string)
    (transaction_date : option date) : option bool :=
  let settings := w_settings w in
  if negb (validate_gstin_status settings)
     || negb (is_api_enabled settings)
     || sandbox_mode settings
     || cache_get_value w gstin
  then None
  else
    match w_db w !! gstin with
    | None => Some true
    | Some doc =>
        match transaction_date with
        | None => Some false
        | Some _ =>
            if negb (str_is (status doc) "Active" || str_is (status doc) "Cancelled")
            then Some true
            else
              let days_since_last_update := date_diff_now w (last_updated_on doc) in
              Some (gstin_status_refresh_interval settings <=? days_since_last_update)
        end
    end.

Definition get_transporter_id_info (transporter_id : string)
  : M (option response_dict) :=
  let* enabled := reads (fun w => enable_e_waybill (w_settings w)) in
  if negb enabled then ret None
  else
    let* company_gstin := reads get_company_gstin in
    if negb (truthy_str company_gstin) then ret None
    else
      let company_gstin := default "" company_gstin in
      let* now := reads w_now in
      let* response :=
        call_api (CallEWaybillAPI company_gstin transporter_id)
                 (EWaybillAPI_get_transporter_details now company_gstin transporter_id) in
      match response with
      | None => ret None
      | Some response =>
          ret (Some
            {| r_gstin := Some transporter_id;
               r_registration_date := None;
               r_cancelled_date := None;
               r_status := None;
               r_is_blocked := None;
               r_transporter_id_status :=
                 Some (Some (if truthy_str (transin response)
                             then "Active" else "Invalid")) |})
      end.

Definition callback_t : Type := gstin_doc -> option date -> M unit.

Definition create_or_update_gstin_status (gstin : string)
    (response : option public_response) (transaction_date : option date)
    (callback : option callback_t) (use_public_api is_transporter_id : bool)
  : M (option gstin_doc) :=
  let* _ := emit (Enter_create_or_update_gstin_status gstin is_transporter_id) in
  let* response :=
    (if is_transporter_id then get_transporter_id_info gstin
     else _get_gstin_info gstin response use_public_api) in
  match response with
  | None => ret None
  | Some response =>
      let* existing := reads (fun w =>
        match r_gstin response with
        | Some name => w_db w !! name
        | None => None
        end) in
      let doc :=
        match existing with
        | Some doc => doc_update doc false response
        | None => doc_update new_doc true response
        end in
      let* doc := doc_save doc in
      let* _ := match callback with
                | Some callback => callback doc transaction_date
                | None => ret tt
                end in
      ret (Some doc)
  end.

(** In the source file this function is the incoming side of a merge
    that was left unresolved; it is modelled as that side has it. *)
Definition validate_gst_transporter_id (transporter_id : string) : M unit :=
  if String.eqb transporter_id "" then ret tt
  else
    let transporter_callback : callback_t :=
      fun doc _ => _validate_gst_transporter_id_info (Some doc) false in
    let gstin_callback : callback_t :=
      fun doc transaction_date => _validate_gstin_info (Some doc) transaction_date false in
    let* existing := reads (fun w => w_db w !! transporter_id) in
    let* gstin :=
      match existing with
      | Some doc => ret (Some doc)
      | None =>
          if String.eqb (String.substring 0 2 transporter_id) "88"
             || negb (validate_gstin_check_digit transporter_id)
          then create_or_update_gstin_status transporter_id None None
                 (Some transporter_callback) false true
          else create_or_update_gstin_status transporter_id None None
                 (Some gstin_callback) false false
      end in
    match gstin with
    | None => ret tt
    | Some gstin_doc =>
        let* gstin :=
          (if negb (str_is (status gstin_doc) "Active")
              && negb (truthy_str (transporter_id_status gstin_doc))
           then create_or_update_gstin_status transporter_id None None
                  (Some transporter_callback) false true
           else ret (Some gstin_doc)) in
        let* gstin_doc := payload "status" gstin in
        if str_is (status gstin_doc) "Active"
           || str_is (transporter_id_status gstin_doc) "Active"
        then ret tt
        else msgprint (MsgTransporterSeemsInactive transporter_id) "orange"
    end.

End Gstin.

(** ** Entry points: whitelisted lookups and document methods

    [frappe.enqueue] hands a call to the background workers; the jobs a
    call enqueues are returned next to its outcome, in order.  The flags
    [is_request_from_ui] and [force_update] are modelled for integer
    arguments, their declared defaults. *)

Section EntryPoints.
Context `{Services}.

(** A queued call of [create_or_update_gstin_status] with its keyword
    arguments. *)
Record job := {
  job_queue : string;
  job_enqueue_after_commit : bool;
  job_gstin : string;
  job_transaction_date : option date;
  job_callback : option callback_t
}.

Definition Q (A : Type) : Type := world -> outcome A * world * list job.

Definition truthy_int (n : Z) : bool := negb (n =? 0).

Definition get_updated_gstin (gstin : string) (transaction_date : option date)
    (is_request_from_ui force_update : Z) : Q (option gstin_doc) :=
  fun w =>
    if truthy_int is_request_from_ui then
      (create_or_update_gstin_status gstin None None None
         (truthy_int force_update) false w, [])
    else
      (Returned None, w,
       [ {| job_queue := "short";
            job_enqueue_after_commit := true;
            job_gstin := gstin;
            job_transaction_date := transaction_date;
            job_callback :=
              Some (fun doc transaction_date =>
                      _validate_gstin_info (Some doc) transaction_date false) |} ]).

Definition get_gstin_status (gstin : string) (transaction_date : option date)
    (is_request_from_ui force_update : Z) : Q (option gstin_doc) :=
  fun w =>
    if String.eqb gstin "" then (Returned None, w, [])
    else if negb (truthy_int force_update)
            && negb (default false
                       (is_status_refresh_required w gstin transaction_date))
    then (Returned (w_db w !! gstin), w, [])
    else get_updated_gstin gstin transaction_date is_request_from_ui force_update w.

(** What a background worker does with a job. *)
Definition run_job (j : job) : M (option gstin_doc) :=
  create_or_update_gstin_status (job_gstin j) None (job_transaction_date j)
    (job_callback j) false false.

(** [GSTIN.update_gstin_status]: the method's result is dropped. *)
Definition update_gstin_status (self : gstin_doc) : M unit :=
  let* _ := create_or_update_gstin_status (default "" (gstin self))
              None None None true false in
  ret tt.

(** [GSTIN.update_transporter_id_status] *)
Definition update_transporter_id_status (self : gstin_doc) : M unit :=
  let* _ := create_or_update_gstin_status (default "" (gstin self))
              None None None false true in
  ret tt.

End EntryPoints.

(** ** Vocabulary of the statements *)

(** A failed validation as its caller sees it: with [throw] the message
    is shown and a [ValidationError] raised; without it the message goes to
    the error log and the call returns. *)
Definition validation_failed (title : string) (throw : bool) (m : message)
    (w : world) (r : outcome unit * world) : Prop :=
  if throw
  then r = (Raised (ValidationError m),
            set_message_log (w_message_log w ++ [(m, "red")]) w)
  else r = (Returned tt,
            set_log (w_log w ++ [LogError title (Body m)]) w).

(** The API source a fetch of [gstin] contacts in world [w] raises [e]:
    the circuit breaker is not set, and the client the call selects (the
    public registry when asked for or when no company GSTIN is configured,
    the e-invoice API otherwise) answers with the exception. *)
Definition fetch_raises `{Services} (w : world) (gstin : string)
    (use_public_api : bool) (e : exn) : Prop :=
  cache_get_value w "gst_server_error" = false /\
  if use_public_api || negb (truthy_str (get_company_gstin w))
  then reply_result (PublicAPI_get_gstin_info (w_now w) gstin) = inl e
  else reply_result
         (EInvoiceAPI_get_gstin_info (w_now w)
            (default "" (get_company_gstin w)) gstin) = inl e.

(** The entry [set_value(key, True, expires_in_sec=ttl)] leaves at [t]. *)
Definition flag_set_at (t ttl : Z) : cache_entry :=
  {| ce_value := true; ce_set_at := t; ce_expires_in_sec := ttl |}.

(** [m] moves every world to one related to it by [R]. *)
Definition stable {A} (R : world -> world -> Prop) (m : M A) : Prop :=
  forall w, R w (snd (m w)).

(** The invariant of section 3 of the specification, on one record and on
    the store. *)
Definition cancelled_dated (d : gstin_doc) : Prop :=
  status d = Some "Cancelled" -> is_Some (cancelled_date d).

Definition store_cancelled_dated (db : gmap string gstin_doc) : Prop :=
  forall name d, db !! name = Some d -> cancelled_dated d.

(** What [before_save] does establish: a Cancelled record that has a
    registration date has a cancellation date. *)
Definition registered_cancelled_dated (d : gstin_doc) : Prop :=
  status d = Some "Cancelled" ->
  is_Some (registration_date d) -> is_Some (cancelled_date d).

Definition store_registered_cancelled_dated (db : gmap string gstin_doc) : Prop :=
  forall name d, db !! name = Some d -> registered_cancelled_dated d.


Definition store_kept (w w' : world) : Prop :=
  store_registered_cancelled_dated (w_db w) ->
  store_registered_cancelled_dated (w_db w').

(** Every record sits under its own [gstin], and no name is empty. *)
Definition store_well_keyed (db : gmap string gstin_doc) : Prop :=
  forall name d, db !! name = Some d -> gstin d = Some name /\ name <> "".

Definition keys_kept (w w' : world) : Prop :=
  store_well_keyed (w_db w) -> store_well_keyed (w_db w').

(** No record of [w] is missing from [w']. *)
Definition records_kept (w w' : world) : Prop :=
  forall name, is_Some (w_db w !! name) -> is_Some (w_db w' !! name).

Definition is_api_call (ev : event) : bool :=
  match ev with
  | CallPublicAPI _ | CallEInvoiceAPI _ _ | CallEWaybillAPI _ _ => true
  | _ => false
  end.

(** ** Sample data *)

Definition sample_gstin : string := "24AAUPV7468F1ZW".

Definition sample_transporter_id : string := "88AABCM9407D1ZS".

Definition no_reply {A : Type} : api_reply A :=
  {| reply_latency := 0; reply_result := inr None |}.

(** The public registry's answer for an active GSTIN, after one second. *)
Definition active_reply : api_reply public_response :=
  {| reply_latency := 1;
     reply_result := inr (Some {| pr_gstin := Some sample_gstin;
                                  rgdt := Some "01/07/2018";
                                  cxdt := None;
                                  sts := Some "Active" |}) |}.

Definition failing {A : Type} (e : exn) : api_reply A :=
  {| reply_latency := 2; reply_result := inl e |}.

(** Services whose public registry answers [public]; the GSTIN checks
    only look at the length. *)
Definition sample_services (public : api_reply public_response) : Services :=
  {| validate_gstin := fun g => Nat.eqb (String.length g) 15;
     validate_gstin_check_digit := fun g => Nat.eqb (String.length g) 15;
     is_api_enabled := enable_api;
     parse_datetime := fun _ value =>
       match value with
       | Some "01/07/2018" => Some (mkdate 2018 7 1)
       | _ => None
       end;
     PublicAPI_get_gstin_info := fun _ _ => public;
     EInvoiceAPI_get_gstin_info := fun _ _ _ => no_reply;
     EWaybillAPI_get_transporter_details := fun _ _ _ => no_reply |}.

Definition sample_settings : gst_settings :=
  {| validate_gstin_status := true;
     sandbox_mode := false;
     gstin_status_refresh_interval := 30;
     enable_api := true;
     enable_e_invoice := false;
     enable_e_waybill := false;
     credentials := [] |}.

Definition sample_world (db : gmap string gstin_doc) : world :=
  {| w_now := 1700000000;
     w_settings := sample_settings;
     w_cache := ∅;
     w_db := db;
     w_log := [];
     w_message_log := [] |}.

(** Sample settings with validation switched off. *)
Definition validation_off_world : world :=
  {| w_now := 1700000000;
     w_settings :=
       {| validate_gstin_status := false;
          sandbox_mode := false;
          gstin_status_refresh_interval := 30;
          enable_api := true;
          enable_e_invoice := false;
          enable_e_waybill := false;
          credentials := [] |};
     w_cache := ∅;
     w_db := ∅;
     w_log := [];
     w_message_log := [] |}.

Definition doc_registered_2020 : gstin_doc :=
  {| gstin := Some sample_gstin;
     status := Some "Active";
     is_blocked := BlkInt 0;
     registration_date := Some (mkdate 2020 1 10);
     cancelled_date := None;
     last_updated_on := Some 1699000000;
     transporter_id_status := None |}.

Definition doc_cancelled_2021 : gstin_doc :=
  {| gstin := Some sample_gstin;
     status := Some "Cancelled";
     is_blocked := BlkInt 0;
     registration_date := Some (mkdate 2018 7 1);
     cancelled_date := Some (mkdate 2021 6 1);
     last_updated_on := Some 1699000000;
     transporter_id_status := None |}.

Definition doc_suspended : gstin_doc :=
  {| gstin := Some sample_gstin;
     status := Some "Suspended";
     is_blocked := BlkInt 0;
     registration_date := Some (mkdate 2018 7 1);
     cancelled_date := None;
     last_updated_on := Some 1699000000;
     transporter_id_status := None |}.

(** A record as the API may hand it over: status code [CNL] and neither
    date parsed. *)
Definition doc_cancelled_undated : gstin_doc :=
  {| gstin := Some sample_gstin;
     status := Some "CNL";
     is_blocked := BlkStr "U";
     registration_date := None;
     cancelled_date := None;
     last_updated_on := None;
     transporter_id_status := None |}.

(** Services with all three sources given; the checks are those of
    [sample_services]. *)
Definition sample_services_with (public : api_reply public_response)
    (einvoice : api_reply einvoice_response)
    (ewaybill : api_reply ewaybill_response) : Services :=
  {| validate_gstin := fun g => Nat.eqb (String.length g) 15;
     validate_gstin_check_digit := fun g => Nat.eqb (String.length g) 15;
     is_api_enabled := enable_api;
     parse_datetime := fun _ value =>
       match value with
       | Some "01/07/2018" => Some (mkdate 2018 7 1)
       | _ => None
       end;
     PublicAPI_get_gstin_info := fun _ _ => public;
     EInvoiceAPI_get_gstin_info := fun _ _ _ => einvoice;
     EWaybillAPI_get_transporter_details := fun _ _ _ => ewaybill |}.

Definition sample_company_gstin : string := "27AAACR5055K1Z7".

(** Settings with e-invoice and e-waybill enabled and credentials for
    the company GSTIN. *)
Definition connected_settings : gst_settings :=
  {| validate_gstin_status := true;
     sandbox_mode := false;
     gstin_status_refresh_interval := 30;
     enable_api := true;
     enable_e_invoice := true;
     enable_e_waybill := true;
     credentials :=
       [ {| service := "Returns"; cred_gstin := Some sample_company_gstin |};
         {| service := "e-Waybill / e-Invoice";
            cred_gstin := Some sample_company_gstin |} ] |}.

Definition connected_world (db : gmap string gstin_doc) : world :=
  {| w_now := 1700000000;
     w_settings := connected_settings;
     w_cache := ∅;
     w_db := db;
     w_log := [];
     w_message_log := [] |}.

Definition active_payload : public_response :=
  {| pr_gstin := Some sample_gstin;
     rgdt := Some "01/07/2018";
     cxdt := None;
     sts := Some "Active" |}.

(** The e-invoice API's answer for a cancelled, blocked GSTIN whose
    cancellation date does not parse. *)
Definition cancelled_blocked_reply : api_reply einvoice_response :=
  {| reply_latency := 3;
     reply_result := inr (Some {| DtReg := Some "01/07/2018";
                                  DtDReg := Some "n/a";
                                  Status := Some "CNL";
                                  BlkStatus := Some "B" |}) |}.

Definition known_transporter_reply : api_reply ewaybill_response :=
  {| reply_latency := 1;
     reply_result := inr (Some {| transin := Some sample_gstin |}) |}.

Definition unknown_transporter_reply : api_reply ewaybill_response :=
  {| reply_latency := 1;
     reply_result := inr (Some {| transin := None |}) |}.

Definition doc_blocked : gstin_doc :=
  {| gstin := Some sample_gstin;
     status := Some "Active";
     is_blocked := BlkInt 1;
     registration_date := Some (mkdate 2018 7 1);
     cancelled_date := None;
     last_updated_on := Some 1690000000;
     transporter_id_status := None |}.

Definition doc_invalid_transporter : gstin_doc :=
  {| gstin := Some sample_transporter_id;
     status := None;
     is_blocked := BlkInt 0;
     registration_date := None;
     cancelled_date := None;
     last_updated_on := Some 1690000000;
     transporter_id_status := Some "Invalid" |}.

(** A refresh of the sample GSTIN as the API may hand it over: status
    code [CNL], registered on 2018-07-01, cancellation date not parsed. *)
Definition doc_cancelled_registered : gstin_doc :=
  {| gstin := Some sample_gstin;
     status := Some "CNL";
     is_blocked := BlkStr "U";
     registration_date := Some (mkdate 2018 7 1);
     cancelled_date := None;
     last_updated_on := None;
     transporter_id_status := None |}.

(** A saved record of another GSTIN, cancelled on 2019-03-31. *)
Definition doc_cancelled_elsewhere : gstin_doc :=
  {| gstin := Some sample_company_gstin;
     status := Some "Cancelled";
     is_blocked := BlkInt 0;
     registration_date := Some (mkdate 2017 7 1);
     cancelled_date := Some (mkdate 2019 3 31);
     last_updated_on := Some 1690000000;
     transporter_id_status := None |}.

(** A saved record of the sample GSTIN: cancelled, and known to the
    e-waybill API not to be a transporter. *)
Definition doc_cancelled_flagged : gstin_doc :=
  {| gstin := Some sample_gstin;
     status := Some "Cancelled";
     is_blocked := BlkInt 1;
     registration_date := Some (mkdate 2017 7 1);
     cancelled_date := Some (mkdate 2021 6 1);
     last_updated_on := Some 1690000000;
     transporter_id_status := Some "Invalid" |}.

(** * Properties *)

Local Open Scope list_scope.

(** ** Calendar arithmetic *)

Section DateFacts.

Lemma days_before_year_succ y :
  days_before_year (y + 1) =
  days_before_year y + 365 + (if is_leap y then 1 else 0).
Proof.
  unfold days_before_year, is_leap.
  replace (y + 1 - 1) with y by lia.
  destruct (y mod 4 =? 0) eqn:E4; destruct (y mod 100 =? 0) eqn:E100;
    destruct (y mod 400 =? 0) eqn:E400; cbn [andb orb negb];
    Z.div_mod_to_equations; lia.
Qed.

Lemma days_before_year_mono y1 y2 :
  y1 <= y2 -> days_before_year y1 <= days_before_year y2.
Proof.
  intros Hle. unfold days_before_year.
  Z.div_mod_to_equations. lia.
Qed.

Lemma month_cases m :
  1 <= m <= 12 ->
  m = 1 \/ m = 2 \/ m = 3 \/ m = 4 \/ m = 5 \/ m = 6 \/
  m = 7 \/ m = 8 \/ m = 9 \/ m = 10 \/ m = 11 \/ m = 12.
Proof. lia. Qed.

Ltac split_month H :=
  apply month_cases in H;
  repeat (destruct H as [H | H]; [subst |]); [.. | subst].

Lemma days_before_month_nonneg y m : 0 <= days_before_month y m.
Proof.
  unfold days_before_month.
  assert (0 <= days_before_month_common m)
    by (unfold days_before_month_common;
        repeat match goal with |- context [match ?x with _ => _ end] =>
                 destruct x end; lia).
  destruct (_ && _); lia.
Qed.

Lemma day_of_year_bound y m d :
  1 <= m <= 12 -> d <= days_in_month y m ->
  days_before_month y m + d <= 365 + (if is_leap y then 1 else 0).
Proof.
  intros Hm Hd. split_month Hm;
    unfold days_before_month; cbn in *; destruct (is_leap y); cbn in *; lia.
Qed.

Lemma days_before_month_next y m1 m2 d :
  1 <= m1 <= 12 -> 1 <= m2 <= 12 -> m1 < m2 -> d <= days_in_month y m1 ->
  days_before_month y m1 + d <= days_before_month y m2.
Proof.
  intros H1 H2 Hlt Hd.
  split_month H1; split_month H2; try lia;
    unfold days_before_month; cbn in *; destruct (is_leap y); cbn in *; lia.
Qed.

Lemma valid_date_bounds d :
  valid_date d = true ->
  1 <= year d <= 9999 /\ 1 <= month d <= 12 /\
  1 <= day d <= days_in_month (year d) (month d).
Proof. unfold valid_date. rewrite !andb_true_iff, !Z.leb_le. lia. Qed.

Lemma toordinal_lt a b :
  valid_date a = true -> valid_date b = true ->
  date_ltb a b = true -> toordinal a < toordinal b.
Proof.
  intros Ha Hb Hlt.
  apply valid_date_bounds in Ha as (Hya & Hma & Hda).
  apply valid_date_bounds in Hb as (Hyb & Hmb & Hdb).
  unfold date_ltb in Hlt. unfold toordinal, ymd2ord.
  apply orb_true_iff in Hlt as [Hy | Hlt].
  - apply Z.ltb_lt in Hy.
    pose proof (day_of_year_bound (year a) (month a) (day a) Hma (proj2 Hda)).
    pose proof (days_before_year_succ (year a)).
    pose proof (days_before_year_mono (year a + 1) (year b) ltac:(lia)).
    pose proof (days_before_month_nonneg (year b) (month b)).
    lia.
  - apply andb_true_iff in Hlt as [Hy Hlt]. apply Z.eqb_eq in Hy.
    rewrite Hy in *.
    apply orb_true_iff in Hlt as [Hm | Hlt].
    + apply Z.ltb_lt in Hm.
      pose proof (days_before_month_next (year b) (month a) (month b) (day a)
                    Hma Hmb Hm (proj2 Hda)).
      lia.
    + apply andb_true_iff in Hlt as [Hm Hd].
      apply Z.eqb_eq in Hm. apply Z.ltb_lt in Hd. rewrite Hm. lia.
Qed.

Lemma toordinal_le a b :
  valid_date a = true -> valid_date b = true ->
  date_leb a b = true -> toordinal a <= toordinal b.
Proof.
  intros Ha Hb Hle. unfold date_leb in Hle.
  apply orb_true_iff in Hle as [Hlt | Heq].
  - pose proof (toordinal_lt a b Ha Hb Hlt). lia.
  - unfold date_eqb in Heq. rewrite !andb_true_iff, !Z.eqb_eq in Heq.
    destruct Heq as [[Hy Hm] Hd]. unfold toordinal. rewrite Hy, Hm, Hd. lia.
Qed.

End DateFacts.

(** ** Small facts about the helpers *)

Lemma str_is_true s lit : str_is s lit = true <-> s = Some lit.
Proof.
  destruct s as [s|]; cbn; [| split; [discriminate | discriminate]].
  rewrite String.eqb_eq. split; [congruence | intros [= ->]; reflexivity].
Qed.

Lemma str_is_false s lit : str_is s lit = false <-> s <> Some lit.
Proof.
  rewrite <- str_is_true. destruct (str_is s lit); split; congruence.
Qed.

(** ** Date-consistency validator *)

Section ValidatorFacts.
Context `{Services}.

Lemma _throw_fails throw title m w :
  validation_failed title throw m w (_throw throw title m w).
Proof. unfold validation_failed, _throw. destruct throw; reflexivity. Qed.

(** C2: a transaction date strictly earlier than the record's
    registration date is rejected with the "registered on" error: raised
    to the user when [throw] is set, written to the error log otherwise. *)
Theorem validate_gstin_info_before_registration
    (doc : gstin_doc) (reg txn : date) (throw : bool) (w : world) :
  registration_date doc = Some reg ->
  valid_date reg = true -> valid_date txn = true ->
  date_ltb txn reg = true ->
  validation_failed "Invalid Party GSTIN" throw
    (MsgRegisteredOn reg (gstin doc)) w
    (_validate_gstin_info (Some doc) (Some txn) throw w).
Proof.
  intros Hreg Hvr Hvt Hlt.
  pose proof (toordinal_lt txn reg Hvt Hvr Hlt) as Hord.
  unfold _validate_gstin_info. rewrite Hreg.
  unfold bind, reads, date_diff, getdate_ordinal.
  replace (toordinal txn - toordinal reg <? 0) with true
    by (symmetry; apply Z.ltb_lt; lia).
  apply _throw_fails.
Qed.

(** C3: for a Cancelled record whose registration date is not after the
    transaction date, a transaction date on or after the cancellation date
    (the cancellation day included) is rejected with the "cancelled on"
    error. *)
Theorem validate_gstin_info_on_or_after_cancellation
    (doc : gstin_doc) (reg cancelled txn : date) (throw : bool) (w : world) :
  status doc = Some "Cancelled" ->
  registration_date doc = Some reg ->
  cancelled_date doc = Some cancelled ->
  valid_date reg = true -> valid_date cancelled = true ->
  valid_date txn = true ->
  date_leb reg txn = true ->
  date_leb cancelled txn = true ->
  validation_failed "Invalid Party GSTIN" throw
    (MsgCancelledOn (Some cancelled) (gstin doc)) w
    (_validate_gstin_info (Some doc) (Some txn) throw w).
Proof.
  intros Hst Hreg Hcan Hvr Hvc Hvt Hle_reg Hle_can.
  pose proof (toordinal_le reg txn Hvr Hvt Hle_reg) as Hord_reg.
  pose proof (toordinal_le cancelled txn Hvc Hvt Hle_can) as Hord_can.
  unfold _validate_gstin_info. rewrite Hreg, Hcan, Hst.
  unfold bind, reads, date_diff, getdate_ordinal.
  replace (toordinal txn - toordinal reg <? 0) with false
    by (symmetry; apply Z.ltb_ge; lia).
  replace (0 <=? toordinal txn - toordinal cancelled) with true
    by (symmetry; apply Z.leb_le; lia).
  cbn [str_is andb]. rewrite String.eqb_refl.
  apply _throw_fails.
Qed.

(** C5: a record whose status is neither Active nor Cancelled never
    passes: whatever its dates, some error is raised (blocking path) or
    logged (background path). *)
Theorem validate_gstin_info_other_status
    (doc : gstin_doc) (txn : date) (throw : bool) (w : world) :
  status doc <> Some "Active" ->
  status doc <> Some "Cancelled" ->
  exists m : message,
    validation_failed "Invalid Party GSTIN" throw m w
      (_validate_gstin_info (Some doc) (Some txn) throw w).
Proof.
  intros Hact Hcan.
  apply str_is_false in Hact. apply str_is_false in Hcan.
  unfold _validate_gstin_info.
  destruct (registration_date doc) as [reg|];
    [| eexists; apply _throw_fails].
  unfold bind, reads. rewrite Hact, Hcan. cbn [andb orb negb].
  destruct (date_diff w (Some txn) (Some reg) <? 0);
    eexists; apply _throw_fails.
Qed.

End ValidatorFacts.

(** ** Refresh policy *)

Section RefreshFacts.
Context `{Services}.

(** C1: the refresh policy.  While validation is disabled, the API is
    disabled, sandbox mode is on or the GSTIN's suppression flag is live,
    nothing is returned (no refresh).  Otherwise a GSTIN without a record
    yields [True], and a GSTIN with a record yields a boolean that is
    [True] exactly when a transaction date was supplied and the status is
    outside Active/Cancelled or at least the configured number of days has
    passed since [last_updated_on]. *)
Theorem is_status_refresh_required_policy
    (w : world) (gstin : string) (transaction_date : option date) :
  let settings := w_settings w in
  let suppressed :=
    validate_gstin_status settings = false \/
    is_api_enabled settings = false \/
    sandbox_mode settings = true \/
    cache_get_value w gstin = true in
  (suppressed -> is_status_refresh_required w gstin transaction_date = None) /\
  (~ suppressed ->
     (w_db w !! gstin = None ->
        is_status_refresh_required w gstin transaction_date = Some true) /\
     (forall doc, w_db w !! gstin = Some doc ->
        exists b,
          is_status_refresh_required w gstin transaction_date = Some b /\
          (b = true <->
             is_Some transaction_date /\
             ((status doc <> Some "Active" /\ status doc <> Some "Cancelled") \/
              gstin_status_refresh_interval settings
                <= date_diff_now w (last_updated_on doc))))).
Proof.
  cbn zeta. unfold is_status_refresh_required.
  destruct (validate_gstin_status (w_settings w)) eqn:Ev;
  destruct (is_api_enabled (w_settings w)) eqn:Ea;
  destruct (sandbox_mode (w_settings w)) eqn:Es;
  destruct (cache_get_value w gstin) eqn:Ec; cbn [negb orb];
    (split;
       [ intros Hs; first [reflexivity | exfalso; intuition congruence]
       | intros Hopen; try (exfalso; apply Hopen; tauto) ]).
  split.
  - intros ->. reflexivity.
  - intros doc ->.
    destruct transaction_date as [td|].
    + destruct (str_is (status doc) "Active") eqn:Eact;
      destruct (str_is (status doc) "Cancelled") eqn:Ecan; cbn [negb orb].
      * apply str_is_true in Eact, Ecan. congruence.
      * apply str_is_true in Eact.
        eexists; split; [reflexivity |].
        rewrite Z.leb_le. split; [intros Hle; split; [eauto | right; exact Hle] |].
        intros [_ [[Hna _] | Hle]]; [congruence | exact Hle].
      * apply str_is_true in Ecan.
        eexists; split; [reflexivity |].
        rewrite Z.leb_le. split; [intros Hle; split; [eauto | right; exact Hle] |].
        intros [_ [[_ Hnc] | Hle]]; [congruence | exact Hle].
      * apply str_is_false in Eact, Ecan.
        exists true; split; [reflexivity |].
        split; [intros _; split; [eauto | left; split; assumption] | reflexivity].
    + exists false; split; [reflexivity |].
      split; [discriminate | intros [[x Hx] _]; discriminate].
Qed.

End RefreshFacts.

(** ** Fetching GSTIN info *)

Section FetchFacts.
Context `{Services}.

Lemma cache_get_value_live w key t ttl :
  w_cache w !! key = Some (flag_set_at t ttl) ->
  w_now w < t + ttl ->
  cache_get_value w key = true.
Proof.
  intros Hk Hlt. unfold cache_get_value. rewrite Hk. cbn.
  apply Z.ltb_lt in Hlt. rewrite Hlt. reflexivity.
Qed.

(** The fetch proper, once the arguments have passed the two early
    exits, in the shape the proofs below take it apart. *)
Ltac enter_fetch Hvalid :=
  unfold _get_gstin_info; rewrite Hvalid;
  unfold try_finally, try_except, bind, ret, reads, cache_set_value, modify.

(** C6: when the API source the fetch contacts raises, the exception does
    not propagate: the fetch returns nothing, the last thing it logged is
    the error with the exception's traceback, and the GSTIN's suppression
    flag is in the cache with a 180-second expiry. *)
Theorem get_gstin_info_exception_suppressed
    (w : world) (gstin : string) (use_public_api : bool) (e : exn) :
  validate_gstin gstin = true ->
  fetch_raises w gstin use_public_api e ->
  exists w',
    _get_gstin_info gstin None use_public_api w = (Returned None, w') /\
    last (w_log w') =
      Some (LogError "Error fetching GSTIN status" (Traceback e)) /\
    w_cache w' !! gstin = Some (flag_set_at (w_now w') 180).
Proof.
  intros Hvalid [Hflag Hraise].
  enter_fetch Hvalid. rewrite Hflag.
  destruct (use_public_api || negb (truthy_str (get_company_gstin w)));
    unfold call_api; rewrite Hraise;
    destruct (is_GSPServerError e); cbn;
    (eexists; split; [reflexivity |]); cbn;
    (split; [apply last_snoc | apply lookup_insert_eq]).
Qed.

(** While the circuit breaker is live, a call contacts no API source
    whatever its arguments, and a call that has no pre-supplied response
    and a well-formed GSTIN returns nothing. *)
Lemma get_gstin_info_circuit_open
    (w : world) (gstin : string) (response : option public_response)
    (use_public_api : bool) :
  cache_get_value w "gst_server_error" = true ->
  w_log (snd (_get_gstin_info gstin response use_public_api w)) = w_log w /\
  (response = None -> validate_gstin gstin = true ->
   fst (_get_gstin_info gstin response use_public_api w) = Returned None).
Proof.
  intros Hflag. unfold _get_gstin_info.
  destruct response as [response|]; [split; [reflexivity | discriminate] |].
  destruct (validate_gstin gstin) eqn:Hvalid.
  - unfold try_finally, try_except, bind, ret, reads, cache_set_value, modify.
    rewrite Hflag. cbn. split; reflexivity.
  - cbn. split; [reflexivity | discriminate].
Qed.

(** C7: when a fetch fails with [GSPServerError], the [gst_server_error]
    flag is in the cache with a 60-second expiry; and in every later
    world that still holds this entry and whose clock is within those 60
    seconds, a fetch contacts no API source and returns nothing. *)
Theorem get_gstin_info_circuit_breaker
    (w : world) (gstin : string) (use_public_api : bool) (e : exn) :
  validate_gstin gstin = true ->
  gstin <> "gst_server_error" ->
  fetch_raises w gstin use_public_api e ->
  is_GSPServerError e = true ->
  exists w',
    _get_gstin_info gstin None use_public_api w = (Returned None, w') /\
    w_cache w' !! "gst_server_error" = Some (flag_set_at (w_now w') 60) /\
    forall (w2 : world) (gstin2 : string) (use_public_api2 : bool),
      w_cache w2 !! "gst_server_error" = w_cache w' !! "gst_server_error" ->
      w_now w' <= w_now w2 < w_now w' + 60 ->
      validate_gstin gstin2 = true ->
      exists w3,
        _get_gstin_info gstin2 None use_public_api2 w2 = (Returned None, w3) /\
        w_log w3 = w_log w2.
Proof.
  intros Hvalid Hne [Hflag Hraise] Hgsp.
  assert (exists w',
    _get_gstin_info gstin None use_public_api w = (Returned None, w') /\
    w_cache w' !! "gst_server_error" = Some (flag_set_at (w_now w') 60))
    as (w' & Hrun & Hentry).
  { enter_fetch Hvalid. rewrite Hflag.
    destruct (use_public_api || negb (truthy_str (get_company_gstin w)));
      unfold call_api; rewrite Hraise, Hgsp; cbn;
      (eexists; split; [reflexivity |]); cbn;
      (rewrite lookup_insert_ne by exact Hne); apply lookup_insert_eq. }
  exists w'. split; [exact Hrun |]. split; [exact Hentry |].
  intros w2 gstin2 up2 Hsame [_ Hlt] Hvalid2.
  rewrite Hentry in Hsame.
  pose proof (cache_get_value_live w2 _ _ _ Hsame Hlt) as Hlive.
  destruct (get_gstin_info_circuit_open w2 gstin2 None up2 Hlive) as [Hlog Hres].
  specialize (Hres eq_refl Hvalid2).
  destruct (_get_gstin_info gstin2 None up2 w2) as [r w3]; cbn in *.
  exists w3. subst r. split; [reflexivity | exact Hlog].
Qed.

(** C10: every fetch that gets past its two early exits (no pre-supplied
    response, GSTIN accepted by [validate_gstin]) returns without raising
    and leaves the GSTIN's suppression flag in the cache with a 180-second
    expiry, whether the API answered, failed or was not contacted; and in
    every later world that still holds this entry and whose clock is
    within those 180 seconds, the refresh policy reports no refresh for
    that GSTIN. *)
Theorem get_gstin_info_sets_suppression_flag
    (w : world) (gstin : string) (use_public_api : bool) :
  validate_gstin gstin = true ->
  exists r w',
    _get_gstin_info gstin None use_public_api w = (Returned r, w') /\
    w_cache w' !! gstin = Some (flag_set_at (w_now w') 180) /\
    forall (w2 : world) (transaction_date : option date),
      w_cache w2 !! gstin = w_cache w' !! gstin ->
      w_now w' <= w_now w2 < w_now w' + 180 ->
      is_status_refresh_required w2 gstin transaction_date = None.
Proof.
  intros Hvalid.
  assert (exists r w',
    _get_gstin_info gstin None use_public_api w = (Returned r, w') /\
    w_cache w' !! gstin = Some (flag_set_at (w_now w') 180))
    as (r & w' & Hrun & Hentry).
  { enter_fetch Hvalid.
    destruct (cache_get_value w "gst_server_error");
      [cbn; do 2 eexists; split; [reflexivity | apply lookup_insert_eq] |].
    destruct (use_public_api || negb (truthy_str (get_company_gstin w)));
      unfold call_api, payload;
      match goal with |- context [reply_result ?x] =>
        destruct (reply_result x) as [e | [resp|]] end;
      try destruct (is_GSPServerError e); cbn;
      (do 2 eexists; split; [reflexivity | apply lookup_insert_eq]). }
  exists r, w'. split; [exact Hrun |]. split; [exact Hentry |].
  intros w2 td Hsame [_ Hlt].
  rewrite Hentry in Hsame.
  pose proof (cache_get_value_live w2 _ _ _ Hsame Hlt) as Hlive.
  unfold is_status_refresh_required. rewrite Hlive.
  rewrite !orb_true_r. reflexivity.
Qed.

End FetchFacts.

(** ** Relations every operation respects

    For a preorder [R] on worlds that the framework primitives respect,
    every function of the module respects it too.  It is used twice below:
    for "the log only grows" and for the store invariant. *)

Create HintDb stable.

Section Stable.
Context `{Services}.
Variable R : world -> world -> Prop.
Hypothesis R_refl : forall w, R w w.
Hypothesis R_trans : forall w1 w2 w3, R w1 w2 -> R w2 w3 -> R w1 w3.
Hypothesis R_now : forall w t, R w (set_now t w).
Hypothesis R_cache : forall w c, R w (set_cache c w).
Hypothesis R_log : forall w ev, R w (set_log (w_log w ++ [ev]) w).
Hypothesis R_message_log : forall w l, R w (set_message_log l w).
Hypothesis R_save : forall w doc, R w (snd (doc_save doc w)).

Lemma stable_ret {A} (a : A) : stable R (ret a).
Proof. intros w. apply R_refl. Qed.

Lemma stable_raise {A} (e : exn) : stable R (@raise A e).
Proof. intros w. apply R_refl. Qed.

Lemma stable_reads {A} (f : world -> A) : stable R (reads f).
Proof. intros w. apply R_refl. Qed.

Lemma stable_bind {A B} (m : M A) (k : A -> M B) :
  stable R m -> (forall a, stable R (k a)) -> stable R (bind m k).
Proof.
  intros Hm Hk w. unfold bind. specialize (Hm w).
  destruct (m w) as [[a | e] w']; cbn in *; [| exact Hm].
  eapply R_trans; [exact Hm | apply Hk].
Qed.

Lemma stable_try_except {A} (m : M A) (handler : exn -> M A) :
  stable R m -> (forall e, stable R (handler e)) -> stable R (try_except m handler).
Proof.
  intros Hm Hh w. unfold try_except. specialize (Hm w).
  destruct (m w) as [[a | e] w']; cbn in *; [exact Hm |].
  eapply R_trans; [exact Hm | apply Hh].
Qed.

Lemma stable_try_finally {A} (m : M A) (cleanup : M unit) :
  stable R m -> stable R cleanup -> stable R (try_finally m cleanup).
Proof.
  intros Hm Hc w. unfold try_finally. specialize (Hm w).
  destruct (m w) as [r w']. specialize (Hc w'). cbn in *.
  destruct (cleanup w') as [[u | e] w'']; cbn in *;
    eapply R_trans; eassumption.
Qed.

Lemma stable_emit ev : stable R (emit ev).
Proof. intros w. apply R_log. Qed.

Lemma stable_log_error title body : stable R (log_error title body).
Proof. apply stable_emit. Qed.

Lemma stable_cache_set_value key value ttl : stable R (cache_set_value key value ttl).
Proof. intros w. apply R_cache. Qed.

Lemma stable_msgprint m indicator : stable R (msgprint m indicator).
Proof. intros w. apply R_message_log. Qed.

Lemma stable_frappe_throw {A} m : stable R (@frappe_throw A m).
Proof. intros w. apply R_message_log. Qed.

Lemma stable_clear_last_message : stable R clear_last_message.
Proof. intros w. apply R_message_log. Qed.

Lemma stable_call_api {A} ev (reply : api_reply A) : stable R (call_api ev reply).
Proof.
  intros w. unfold call_api.
  assert (R w (set_now (w_now w + Z.of_nat (reply_latency reply))
                 (set_log (w_log w ++ [ev]) w)))
    by (eapply R_trans; [apply R_log | apply R_now]).
  destruct (reply_result reply); assumption.
Qed.

Lemma stable_payload {A} attribute (r : option A) : stable R (payload attribute r).
Proof. destruct r; [apply stable_ret | apply stable_raise]. Qed.

Lemma stable_doc_save doc : stable R (doc_save doc).
Proof. intros w. apply R_save. Qed.

#[local] Hint Resolve stable_ret stable_raise stable_reads stable_emit stable_log_error
  stable_cache_set_value stable_msgprint stable_frappe_throw
  stable_clear_last_message stable_call_api stable_payload stable_doc_save
  : stable.

(** Walks the control structure of a function body. *)
Ltac stable_walk :=
  repeat first
    [ solve [auto with stable]
    | apply stable_bind; [| intros ?]
    | apply stable_try_finally
    | apply stable_try_except; [| intros ?]
    | match goal with
      | |- stable _ (if ?b then _ else _) => destruct b
      | |- stable _ (match ?x with _ => _ end) => destruct x
      end ].

Lemma stable__throw throw title m : stable R (_throw throw title m).
Proof. unfold _throw. stable_walk. Qed.
#[local] Hint Resolve stable__throw : stable.

Lemma stable__get_gstin_info gstin response use_public_api :
  stable R (_get_gstin_info gstin response use_public_api).
Proof. unfold _get_gstin_info. stable_walk. Qed.

Lemma stable_get_transporter_id_info transporter_id :
  stable R (get_transporter_id_info transporter_id).
Proof. unfold get_transporter_id_info. stable_walk. Qed.

Lemma stable__validate_gstin_info gstin_doc transaction_date throw :
  stable R (_validate_gstin_info gstin_doc transaction_date throw).
Proof. unfold _validate_gstin_info. stable_walk. Qed.

Lemma stable__validate_gst_transporter_id_info info throw :
  stable R (_validate_gst_transporter_id_info info throw).
Proof. unfold _validate_gst_transporter_id_info. stable_walk. Qed.

#[local] Hint Resolve stable__get_gstin_info stable_get_transporter_id_info
  stable__validate_gstin_info stable__validate_gst_transporter_id_info : stable.

Lemma stable_create_or_update_gstin_status
    gstin response transaction_date (callback : option callback_t)
    use_public_api is_transporter_id :
  (forall cb doc td, callback = Some cb -> stable R (cb doc td)) ->
  stable R (create_or_update_gstin_status gstin response transaction_date
              callback use_public_api is_transporter_id).
Proof.
  intros Hcb. unfold create_or_update_gstin_status.
  destruct callback as [cb|]; stable_walk; eapply Hcb; reflexivity.
Qed.

Lemma stable_validate_gst_transporter_id transporter_id :
  stable R (validate_gst_transporter_id transporter_id).
Proof.
  unfold validate_gst_transporter_id.
  destruct (String.eqb transporter_id ""); [apply stable_ret |].
  repeat first
    [ solve [auto with stable]
    | apply stable_create_or_update_gstin_status;
      intros cb doc td [= <-]; solve [stable_walk]
    | apply stable_bind; [| intros ?]
    | match goal with
      | |- stable _ (if ?b then _ else _) => destruct b
      | |- stable _ (match ?x with _ => _ end) => destruct x
      end ].
Qed.



End Stable.

(** ** The log only grows, the store keeps its invariant *)

Section StoreFacts.
Context `{Services}.




Lemma doc_save_log w doc : w_log (snd (doc_save doc w)) = w_log w.
Proof.
  unfold doc_save. destruct (gstin (before_save (w_now w) doc)) as [name|];
    [destruct (truthy_str (Some name)) |]; reflexivity.
Qed.

Lemma before_save_registered_cancelled_dated now d :
  registered_cancelled_dated (before_save now d).
Proof.
  unfold registered_cancelled_dated, before_save. cbn.
  intros Hst Hreg. apply str_is_true in Hst.
  destruct (cancelled_date d) as [c|]; [eauto |].
  rewrite Hst. exact Hreg.
Qed.

Lemma before_save_backfill now d :
  cancelled_date d = None ->
  status (before_save now d) = Some "Cancelled" ->
  cancelled_date (before_save now d) = registration_date d.
Proof.
  unfold before_save. cbn. intros -> Hst.
  apply str_is_true in Hst. rewrite Hst. reflexivity.
Qed.

Lemma before_save_keeps_cancelled_date now d c :
  cancelled_date d = Some c -> cancelled_date (before_save now d) = Some c.
Proof. unfold before_save. cbn. intros ->. reflexivity. Qed.

Lemma doc_save_store_kept w doc : store_kept w (snd (doc_save doc w)).
Proof.
  unfold store_kept, doc_save. intros Hinv.
  destruct (gstin (before_save (w_now w) doc)) as [name|]; [| exact Hinv].
  destruct (truthy_str (Some name)); [| exact Hinv].
  cbn. intros name' d Hlook.
  destruct (decide (name = name')) as [-> | Hne].
  - rewrite lookup_insert_eq in Hlook. injection Hlook as <-.
    apply before_save_registered_cancelled_dated.
  - rewrite lookup_insert_ne in Hlook by exact Hne. eapply Hinv, Hlook.
Qed.

(** C4, as the code has it: [before_save] backfills a missing
    [cancelled_date] of a Cancelled record from [registration_date] and
    keeps one that is present, so a saved Cancelled record with a
    registration date has a cancellation date; what a save files under
    the document's GSTIN is the document as [before_save] left it; and
    this invariant of the store survives every save and every call of the
    module's two entry points that write records. *)
Theorem save_keeps_registered_cancelled_dated (w : world) :
  store_registered_cancelled_dated (w_db w) ->
  (forall doc,
     let saved := before_save (w_now w) doc in
     registered_cancelled_dated saved /\
     (cancelled_date doc = None -> status saved = Some "Cancelled" ->
      cancelled_date saved = registration_date doc) /\
     (forall c, cancelled_date doc = Some c -> cancelled_date saved = Some c) /\
     store_registered_cancelled_dated (w_db (snd (doc_save doc w))) /\
     (forall name, gstin doc = Some name -> name <> "" ->
        w_db (snd (doc_save doc w)) !! name = Some saved)) /\
  (forall gstin response transaction_date use_public_api is_transporter_id,
     store_registered_cancelled_dated
       (w_db (snd (create_or_update_gstin_status gstin response
                     transaction_date None use_public_api is_transporter_id w)))) /\
  (forall transporter_id,
     store_registered_cancelled_dated
       (w_db (snd (validate_gst_transporter_id transporter_id w)))).
Proof.
  intros Hinv.
  assert (Hrefl : forall w0, store_kept w0 w0) by (intros w0 H0; exact H0).
  assert (Htrans : forall w1 w2 w3,
            store_kept w1 w2 -> store_kept w2 w3 -> store_kept w1 w3)
    by (intros w1 w2 w3 H12 H23 H1; apply H23, H12, H1).
  split; [| split].
  - intros doc. cbn zeta. split; [apply before_save_registered_cancelled_dated |].
    split; [apply before_save_backfill |].
    split; [intros c; apply before_save_keeps_cancelled_date |].
    split; [apply doc_save_store_kept, Hinv |].
    intros name Hname Hne. unfold doc_save.
    change (gstin (before_save (w_now w) doc)) with (gstin doc). rewrite Hname.
    assert (truthy_str (Some name) = true) as ->
      by (cbn; apply negb_true_iff, String.eqb_neq, Hne).
    apply lookup_insert_eq.
  - intros gstin response td up tr.
    refine (stable_create_or_update_gstin_status store_kept Hrefl Htrans
              _ _ _ _ doc_save_store_kept gstin response td None up tr _ w Hinv);
      try (intros w0 x H0; exact H0).
    intros cb doc td' [=].
  - intros transporter_id.
    refine (stable_validate_gst_transporter_id store_kept Hrefl Htrans
              _ _ _ _ doc_save_store_kept transporter_id w Hinv);
      intros w0 x H0; exact H0.
Qed.

End StoreFacts.

(** ** Transporter ID validation *)

Section TransporterFacts.
Context `{Services}.

(** [s[:2] == "88"] says that [s] starts with the two characters. *)
Lemma slice2_is_88 (s : string) :
  String.eqb (String.substring 0 2 s) "88" = true <->
  exists tail, s = String.append "88" tail.
Proof.
  rewrite String.eqb_eq. split.
  - destruct s as [| c1 [| c2 s']]; cbn; try discriminate.
    assert (String.substring 0 0 s' = "") as -> by (destruct s'; reflexivity).
    intros [= -> ->]. exists s'. reflexivity.
  - intros [tail ->]. cbn. destruct tail; reflexivity.
Qed.


(** C9, the failing case: an existing record that is not Active and has
    no transporter status sends the validation to the transporter API;
    with e-waybill disabled that lookup returns nothing, and the status
    check that follows raises [AttributeError]; no warning has been shown
    by then. *)
Theorem validate_gst_transporter_id_fallback_raises
    (w : world) (transporter_id : string) (doc : gstin_doc) :
  transporter_id <> "" ->
  w_db w !! transporter_id = Some doc ->
  status doc <> Some "Active" ->
  truthy_str (transporter_id_status doc) = false ->
  enable_e_waybill (w_settings w) = false ->
  validate_gst_transporter_id transporter_id w =
    (Raised (AttributeError "status"),
     set_log (w_log w ++
       [Enter_create_or_update_gstin_status transporter_id true]) w).
Proof.
  intros Hne Hdoc Hst Htr Hew.
  apply String.eqb_neq in Hne. apply str_is_false in Hst.
  unfold validate_gst_transporter_id. rewrite Hne.
  unfold bind at 1. unfold reads at 1. rewrite Hdoc.
  unfold bind at 1. unfold ret at 1.
  rewrite Hst, Htr. cbn [negb andb].
  unfold create_or_update_gstin_status, get_transporter_id_info.
  unfold bind, emit, modify, reads, ret, payload, raise. cbn.
  rewrite Hew. reflexivity.
Qed.

End TransporterFacts.

(** ** Scenarios *)

Example toordinal_epoch : toordinal (mkdate 1970 1 1) = datetime_ordinal 0.
Proof. reflexivity. Qed.

Example toordinal_2020_01_10 : toordinal (mkdate 2020 1 10) = 737434.
Proof. reflexivity. Qed.

Example toordinal_2021_06_01 : toordinal (mkdate 2021 6 1) = 737942.
Proof. reflexivity. Qed.

Example before_save_maps_codes :
  status (before_save 0 doc_cancelled_undated) = Some "Cancelled" /\
  is_blocked (before_save 0 doc_cancelled_undated) = BlkInt 0 /\
  is_blocked (before_save 0 (before_save 0 doc_cancelled_undated)) = BlkInt 0.
Proof. repeat split. Qed.

Example fetch_and_store_active :
  exists w',
    create_or_update_gstin_status (H := sample_services active_reply)
      sample_gstin None None None true false (sample_world ∅)
    = (Returned (Some
         {| gstin := Some sample_gstin;
            status := Some "Active";
            is_blocked := BlkInt 0;
            registration_date := Some (mkdate 2018 7 1);
            cancelled_date := None;
            last_updated_on := Some 1700000001;
            transporter_id_status := None |}), w') /\
    w_log w' = [Enter_create_or_update_gstin_status sample_gstin false;
                CallPublicAPI sample_gstin] /\
    is_Some (w_db w' !! sample_gstin).
Proof. eexists. split; [vm_compute; reflexivity |]. split; [reflexivity |]. vm_compute. eauto. Qed.

(** With validation switched off the policy returns nothing, also for a
    GSTIN that has no record. *)
Example refresh_validation_off :
  is_status_refresh_required (H := sample_services no_reply)
    validation_off_world sample_gstin None = None.
Proof. reflexivity. Qed.

(** A first-time GSTIN under the sample settings needs a refresh. *)
Lemma refresh_first_time_gstin :
  is_status_refresh_required (H := sample_services no_reply)
    (sample_world ∅) sample_gstin None = Some true.
Proof.
  apply (proj2 (is_status_refresh_required_policy (H := sample_services no_reply)
                  (sample_world ∅) sample_gstin None)).
  - intros [Hd | [Hd | [Hd | Hd]]]; vm_compute in Hd; discriminate Hd.
  - reflexivity.
Defined.

(** Scenario: registration_date = 2020-01-10, transaction_date =
    2020-01-05. *)
Lemma scenario_before_registration :
  validation_failed "Invalid Party GSTIN" true
    (MsgRegisteredOn (mkdate 2020 1 10) (Some sample_gstin))
    (sample_world ∅)
    (_validate_gstin_info
       (Some doc_registered_2020) (Some (mkdate 2020 1 5)) true (sample_world ∅)).
Proof.
  apply (validate_gstin_info_before_registration
           doc_registered_2020 (mkdate 2020 1 10) (mkdate 2020 1 5) true
           (sample_world ∅)); reflexivity.
Defined.

(** Scenario: status = Cancelled, cancelled_date = 2021-06-01,
    transaction_date = 2021-06-01. *)
Lemma scenario_cancellation_day :
  validation_failed "Invalid Party GSTIN" false
    (MsgCancelledOn (Some (mkdate 2021 6 1)) (Some sample_gstin))
    (sample_world ∅)
    (_validate_gstin_info
       (Some doc_cancelled_2021) (Some (mkdate 2021 6 1)) false (sample_world ∅)).
Proof.
  apply (validate_gstin_info_on_or_after_cancellation
           doc_cancelled_2021 (mkdate 2018 7 1) (mkdate 2021 6 1) (mkdate 2021 6 1)
           false (sample_world ∅)); reflexivity.
Defined.

Lemma scenario_suspended :
  exists m : message,
    validation_failed "Invalid Party GSTIN" true m (sample_world ∅)
      (_validate_gstin_info
         (Some doc_suspended) (Some (mkdate 2022 3 15)) true (sample_world ∅)).
Proof.
  apply (validate_gstin_info_other_status
           doc_suspended (mkdate 2022 3 15) true (sample_world ∅));
    vm_compute; discriminate.
Defined.

(** The store after saving a record that arrives as Cancelled with no
    date at all: the invariant of the specification does not hold. *)
Lemma saved_cancelled_record_without_date :
  ~ store_cancelled_dated
      (w_db (snd (doc_save doc_cancelled_undated (sample_world ∅)))).
Proof.
  intros Hinv.
  assert (w_db (snd (doc_save doc_cancelled_undated (sample_world ∅)))
            !! sample_gstin =
          Some (before_save 1700000000 doc_cancelled_undated)) as Hlook
    by (vm_compute; reflexivity).
  destruct (Hinv _ _ Hlook eq_refl) as [c Hc]. discriminate Hc.
Qed.

(** A refresh arrives as Cancelled with a registration date and no
    cancellation date, while another Cancelled record is in the store:
    the record is filed with the registration date as its cancellation
    date, and the store keeps its invariant. *)
Lemma save_backfills_cancelled_date :
  let w := sample_world {[ sample_company_gstin := doc_cancelled_elsewhere ]} in
  let saved := before_save (w_now w) doc_cancelled_registered in
  w_db (snd (doc_save doc_cancelled_registered w)) !! sample_gstin = Some saved /\
  status saved = Some "Cancelled" /\
  registration_date saved = Some (mkdate 2018 7 1) /\
  cancelled_date saved = Some (mkdate 2018 7 1) /\
  store_registered_cancelled_dated
    (w_db (snd (doc_save doc_cancelled_registered w))).
Proof.
  cbn zeta.
  destruct (save_keeps_registered_cancelled_dated
              (H := sample_services no_reply)
              (sample_world {[ sample_company_gstin := doc_cancelled_elsewhere ]}))
    as [Hsave _].
  - intros name d Hlook. cbn [w_db sample_world] in Hlook.
    apply lookup_singleton_Some in Hlook as [_ <-].
    intros _ _. exists (mkdate 2019 3 31). reflexivity.
  - destruct (Hsave doc_cancelled_registered)
      as (_ & Hfill & _ & Hstore & Hfiled).
    split; [apply Hfiled; [reflexivity | discriminate] |].
    split; [reflexivity |]. split; [reflexivity |].
    split; [| exact Hstore].
    rewrite Hfill; reflexivity.
Defined.

(** The public registry times out. *)
Lemma scenario_api_timeout :
  exists w',
    _get_gstin_info (H := sample_services (failing (OtherError "Timeout")))
      sample_gstin None true (sample_world ∅) = (Returned None, w') /\
    last (w_log w') =
      Some (LogError "Error fetching GSTIN status"
              (Traceback (OtherError "Timeout"))) /\
    w_cache w' !! sample_gstin = Some (flag_set_at (w_now w') 180).
Proof.
  apply (get_gstin_info_exception_suppressed
           (H := sample_services (failing (OtherError "Timeout")))
           (sample_world ∅) sample_gstin true (OtherError "Timeout")).
  - reflexivity.
  - split; reflexivity.
Defined.

(** The GSP answers with a server error: the breaker is set, and a fetch
    of another GSTIN 59 seconds later stays silent. *)
Lemma scenario_server_error :
  exists w',
    _get_gstin_info (H := sample_services (failing GSPServerError))
      sample_gstin None true (sample_world ∅) = (Returned None, w') /\
    w_cache w' !! "gst_server_error" = Some (flag_set_at (w_now w') 60) /\
    exists w3,
      _get_gstin_info (H := sample_services (failing GSPServerError))
        "27AAACR5055K1Z7" None false (set_now (w_now w' + 59) w')
        = (Returned None, w3) /\
      w_log w3 = w_log w'.
Proof.
  destruct (get_gstin_info_circuit_breaker
              (H := sample_services (failing GSPServerError))
              (sample_world ∅) sample_gstin true GSPServerError)
    as (w' & Hrun & Hentry & Hlater).
  - reflexivity.
  - discriminate.
  - split; reflexivity.
  - reflexivity.
  - exists w'. split; [exact Hrun |]. split; [exact Hentry |].
    apply (Hlater (set_now (w_now w' + 59) w') "27AAACR5055K1Z7" false).
    + reflexivity.
    + cbn. lia.
    + reflexivity.
Defined.

(** A fetch the registry answers also suppresses refreshes, here 179
    seconds after it. *)
Lemma scenario_suppressed_after_fetch :
  exists r w',
    _get_gstin_info (H := sample_services active_reply)
      sample_gstin None false (sample_world ∅) = (Returned r, w') /\
    w_cache w' !! sample_gstin = Some (flag_set_at (w_now w') 180) /\
    is_status_refresh_required (H := sample_services active_reply)
      (set_now (w_now w' + 179) w') sample_gstin (Some (mkdate 2023 11 15))
      = None.
Proof.
  destruct (get_gstin_info_sets_suppression_flag
              (H := sample_services active_reply)
              (sample_world ∅) sample_gstin false)
    as (r & w' & Hrun & Hentry & Hlater).
  - reflexivity.
  - exists r, w'. split; [exact Hrun |]. split; [exact Hentry |].
    apply Hlater; [reflexivity | cbn; lia].
Defined.


(** The failing input: a Cancelled record under the ID, e-waybill off. *)
Lemma scenario_fallback_raises :
  validate_gst_transporter_id (H := sample_services no_reply) sample_gstin
    (sample_world {[ sample_gstin := doc_cancelled_2021 ]}) =
  (Raised (AttributeError "status"),
   set_log [Enter_create_or_update_gstin_status sample_gstin true]
     (sample_world {[ sample_gstin := doc_cancelled_2021 ]})).
Proof.
  apply (validate_gst_transporter_id_fallback_raises
           (H := sample_services no_reply)
           (sample_world {[ sample_gstin := doc_cancelled_2021 ]})
           sample_gstin doc_cancelled_2021).
  - discriminate.
  - vm_compute; reflexivity.
  - discriminate.
  - reflexivity.
  - reflexivity.
Defined.

(** * Further behaviour of the module *)

(** ** The validators *)

Section ValidatorBehaviour.

Lemma set_log_snoc_neq w ev : set_log (w_log w ++ [ev]) w <> w.
Proof.
  intros Heq. apply (f_equal w_log) in Heq. cbn in Heq.
  apply (f_equal length) in Heq. rewrite length_app in Heq. cbn in Heq. lia.
Qed.

Lemma _throw_changes throw title m w : _throw throw title m w <> (Returned tt, w).
Proof.
  unfold _throw. destruct throw; [discriminate |].
  unfold log_error, emit, modify. intros [= Heq].
  exact (set_log_snoc_neq _ _ Heq).
Qed.

(** The validator lets a record and a transaction date pass, silently,
    exactly when the record has a registration date that is not after
    the transaction date and the status is Active, or Cancelled with the
    transaction date before the cancellation date; for a Cancelled record
    without a cancellation date, today takes its place. *)
Theorem validate_gstin_info_passes_iff
    (doc : gstin_doc) (txn : date) (throw : bool) (w : world) :
  _validate_gstin_info (Some doc) (Some txn) throw w = (Returned tt, w) <->
  exists reg,
    registration_date doc = Some reg /\
    toordinal reg <= toordinal txn /\
    (status doc = Some "Active" \/
     (status doc = Some "Cancelled" /\
      toordinal txn < getdate_ordinal w (cancelled_date doc))).
Proof.
  unfold _validate_gstin_info.
  destruct (registration_date doc) as [reg|].
  2: { split; [intros Hrun; exfalso; exact (_throw_changes _ _ _ _ Hrun) |].
       intros (reg & [=] & _). }
  unfold bind, reads, date_diff. cbn [getdate_ordinal].
  destruct (toordinal txn - toordinal reg <? 0) eqn:Ebefore.
  { apply Z.ltb_lt in Ebefore.
    split; [intros Hrun; exfalso; exact (_throw_changes _ _ _ _ Hrun) |].
    intros (reg' & [= <-] & Hle & _). lia. }
  apply Z.ltb_ge in Ebefore.
  destruct (str_is (status doc) "Cancelled") eqn:Ecan; cbn [andb].
  - apply str_is_true in Ecan.
    destruct (0 <=? toordinal txn - getdate_ordinal w (cancelled_date doc))
      eqn:Eafter.
    + apply Z.leb_le in Eafter.
      split; [intros Hrun; exfalso; exact (_throw_changes _ _ _ _ Hrun) |].
      intros (reg' & _ & _ & [Hact | [_ Hlt]]); [congruence | lia].
    + apply Z.leb_gt in Eafter. rewrite orb_true_r. cbn [negb].
      split; [intros _ | reflexivity].
      exists reg. split; [reflexivity |]. split; [lia |].
      right. split; [exact Ecan | lia].
  - rewrite orb_false_r.
    destruct (str_is (status doc) "Active") eqn:Eact; cbn [negb].
    + apply str_is_true in Eact. split; [intros _ | reflexivity].
      exists reg. split; [reflexivity |]. split; [lia | left; exact Eact].
    + apply str_is_false in Eact, Ecan.
      split; [intros Hrun; exfalso; exact (_throw_changes _ _ _ _ Hrun) |].
      intros (reg' & _ & _ & [Hact | [Hcan _]]); congruence.
Qed.

(** Called as a callback ([throw] unset) neither validator raises: the
    call returns, and all it may leave behind is one entry in the error
    log. *)
Theorem validators_in_background_only_log
    (gstin_doc : option gstin_doc) (transaction_date : option date) (w : world) :
  (exists w',
     _validate_gstin_info gstin_doc transaction_date false w = (Returned tt, w') /\
     (w' = w \/
      exists m, w' = set_log (w_log w ++
                        [LogError "Invalid Party GSTIN" (Body m)]) w)) /\
  (exists w',
     _validate_gst_transporter_id_info gstin_doc false w = (Returned tt, w') /\
     (w' = w \/
      exists m, w' = set_log (w_log w ++
                        [LogError "Invalid Transporter ID" (Body m)]) w)).
Proof.
  split.
  - unfold _validate_gstin_info.
    destruct gstin_doc as [doc|]; [| eexists; split; [reflexivity | left; reflexivity]].
    destruct transaction_date as [txn|];
      [| eexists; split; [reflexivity | left; reflexivity]].
    destruct (registration_date doc) as [reg|];
      [| eexists; split; [reflexivity | right; eexists; reflexivity]].
    unfold bind, reads.
    destruct (date_diff w (Some txn) (Some reg) <? 0);
      [eexists; split; [reflexivity | right; eexists; reflexivity] |].
    destruct (str_is (status doc) "Cancelled" &&
              (0 <=? date_diff w (Some txn) (cancelled_date doc)));
      [eexists; split; [reflexivity | right; eexists; reflexivity] |].
    destruct (negb (str_is (status doc) "Active" || str_is (status doc) "Cancelled"));
      eexists; (split; [reflexivity |]);
      [right; eexists; reflexivity | left; reflexivity].
  - unfold _validate_gst_transporter_id_info.
    destruct gstin_doc as [doc|]; [| eexists; split; [reflexivity | left; reflexivity]].
    destruct (negb (str_is (transporter_id_status doc) "Active"));
      eexists; (split; [reflexivity |]);
      [right; eexists; reflexivity | left; reflexivity].
Qed.

End ValidatorBehaviour.

(** ** Saving a record *)

Section SaveBehaviour.

Lemma GSTIN_STATUS_names_are_not_codes s full :
  dict_get GSTIN_STATUS s = Some full -> dict_get GSTIN_STATUS full = None.
Proof.
  intros Hget. unfold GSTIN_STATUS in Hget. cbn [dict_get] in Hget.
  repeat match type of Hget with
         | context [String.eqb ?k s] =>
             destruct (String.eqb k s); cbn [dict_get] in Hget
         end;
    try discriminate Hget; injection Hget as <-; reflexivity.
Qed.

Lemma before_save_status_fixed now d :
  match status (before_save now d) with
  | Some s => dict_get GSTIN_STATUS s = None
  | None => True
  end.
Proof.
  unfold before_save. cbn [status].
  destruct (status d) as [s|]; [| exact I].
  destruct (dict_get GSTIN_STATUS s) as [full|] eqn:E; [| exact E].
  eapply GSTIN_STATUS_names_are_not_codes, E.
Qed.

(** Saving a record that has been saved before changes none of gstin,
    status, the two dates and the transporter status: the status codes
    were expanded and the cancellation date backfilled the first time.
    The block flag does not survive: the integer the first save stored is
    not a key of [GSTIN_BLOCK_STATUS], so the second save stores 0. *)
Theorem before_save_again (now now' : Z) (d : gstin_doc) :
  let saved := before_save now d in
  let again := before_save now' saved in
  gstin again = gstin saved /\
  status again = status saved /\
  registration_date again = registration_date saved /\
  cancelled_date again = cancelled_date saved /\
  transporter_id_status again = transporter_id_status saved /\
  last_updated_on again = Some now' /\
  (is_blocked saved = BlkInt 1 <-> is_blocked d = BlkStr "B") /\
  is_blocked again = BlkInt 0.
Proof.
  cbn zeta.
  pose proof (before_save_status_fixed now d) as Hfixed.
  assert (Hst : status (before_save now' (before_save now d))
                = status (before_save now d)).
  { unfold before_save at 1. cbn [status].
    destruct (status (before_save now d)) as [s|]; [| reflexivity].
    rewrite Hfixed. reflexivity. }
  split; [reflexivity |]. split; [exact Hst |]. split; [reflexivity |].
  split.
  { unfold before_save at 1. cbn [cancelled_date].
    destruct (cancelled_date (before_save now d)) as [c|] eqn:Ec; [reflexivity |].
    fold (status (before_save now' (before_save now d))).
    change (match status (before_save now d) with
            | Some s => match dict_get GSTIN_STATUS s with
                        | Some full => Some full
                        | None => Some s
                        end
            | None => None
            end) with (status (before_save now' (before_save now d))).
    rewrite Hst.
    destruct (str_is (status (before_save now d)) "Cancelled") eqn:Ecan;
      [| reflexivity].
    revert Ec Ecan. unfold before_save. cbn.
    destruct (cancelled_date d); [discriminate |].
    intros Ec Ecan. rewrite Ecan in Ec. exact Ec. }
  split; [reflexivity |]. split; [reflexivity |].
  split.
  - unfold before_save. cbn [is_blocked].
    destruct (is_blocked d) as [| s | n]; try (split; discriminate).
    unfold GSTIN_BLOCK_STATUS. cbn [dict_get].
    destruct (String.eqb "U" s) eqn:EU.
    { apply String.eqb_eq in EU. subst s. split; discriminate. }
    destruct (String.eqb "B" s) eqn:EB.
    + apply String.eqb_eq in EB. subst s. split; reflexivity.
    + apply String.eqb_neq in EB. split; [discriminate | intros [= Hs]; congruence].
  - unfold before_save. cbn [is_blocked].
    destruct (is_blocked d) as [| s | n]; try reflexivity.
    destruct (dict_get GSTIN_BLOCK_STATUS s); reflexivity.
Qed.

End SaveBehaviour.

(** ** Which API a fetch contacts *)

Section SourceSelection.
Context `{Services}.

Lemma first_credential_row rows cg :
  first_credential rows = Some cg ->
  exists row, row ∈ rows /\ service row = "e-Waybill / e-Invoice" /\
              cred_gstin row = Some cg.
Proof.
  induction rows as [| row rows IH]; cbn; [discriminate |].
  destruct (String.eqb (service row) "e-Waybill / e-Invoice") eqn:Es.
  - intros Hg. apply String.eqb_eq in Es.
    exists row. split; [apply list_elem_of_here | split; assumption].
  - intros Hg. destruct (IH Hg) as (row' & Hin & Hs & Hc).
    exists row'. split; [apply list_elem_of_further, Hin | split; assumption].
Qed.

Lemma get_company_gstin_row w cg :
  get_company_gstin w = Some cg ->
  enable_e_invoice (w_settings w) = true /\
  exists row, row ∈ credentials (w_settings w) /\
              service row = "e-Waybill / e-Invoice" /\
              cred_gstin row = Some cg.
Proof.
  unfold get_company_gstin.
  destruct (enable_e_invoice (w_settings w)); cbn; [| discriminate].
  intros Hg. split; [reflexivity | apply first_credential_row, Hg].
Qed.

Lemma truthy_str_Some s : truthy_str s = true -> exists v, s = Some v /\ v <> "".
Proof.
  destruct s as [v|]; cbn; [| discriminate].
  intros Hv. exists v. split; [reflexivity |].
  apply negb_true_iff, String.eqb_neq in Hv. exact Hv.
Qed.

(** A call of [_get_gstin_info] sends at most one API request and never
    one to the e-waybill API.  A request to the public registry means that
    the caller asked for it or that no company GSTIN is configured; a
    request to the e-invoice API means that the caller did not ask for the
    public registry, e-invoice is enabled, and the company GSTIN it is
    sent with is the non-empty GSTIN of a credentials row for the service
    "e-Waybill / e-Invoice".  Both ask about the GSTIN of the call. *)
Theorem get_gstin_info_requests
    (w : world) (gstin : string) (response : option public_response)
    (use_public_api : bool) :
  exists l : list event,
    w_log (snd (_get_gstin_info gstin response use_public_api w)) = w_log w ++ l /\
    (length (List.filter is_api_call l) <= 1)%nat /\
    forall ev, ev ∈ l -> is_api_call ev = true ->
      (ev = CallPublicAPI gstin /\
       (use_public_api = true \/ truthy_str (get_company_gstin w) = false)) \/
      (exists cg,
         ev = CallEInvoiceAPI cg gstin /\
         use_public_api = false /\ cg <> "" /\
         enable_e_invoice (w_settings w) = true /\
         exists row, row ∈ credentials (w_settings w) /\
                     service row = "e-Waybill / e-Invoice" /\
                     cred_gstin row = Some cg).
Proof.
  set (allowed := fun ev : event =>
    is_api_call ev = true ->
    (ev = CallPublicAPI gstin /\
     (use_public_api = true \/ truthy_str (get_company_gstin w) = false)) \/
    (exists cg,
       ev = CallEInvoiceAPI cg gstin /\
       use_public_api = false /\ cg <> "" /\
       enable_e_invoice (w_settings w) = true /\
       exists row, row ∈ credentials (w_settings w) /\
                   service row = "e-Waybill / e-Invoice" /\
                   cred_gstin row = Some cg)).
  enough (exists l : list event,
            w_log (snd (_get_gstin_info gstin response use_public_api w))
              = w_log w ++ l /\
            (length (List.filter is_api_call l) <= 1)%nat /\
            Forall allowed l) as (l & Hlog & Hlen & Hall).
  { exists l. split; [exact Hlog |]. split; [exact Hlen |].
    intros ev Hin. exact (proj1 (Forall_forall _ _) Hall ev Hin). }
  assert (Hquiet : forall w' : world, w_log w' = w_log w ->
            exists l : list event, w_log w' = w_log w ++ l /\
              (length (List.filter is_api_call l) <= 1)%nat /\ Forall allowed l).
  { intros w' Hw'. exists []. rewrite app_nil_r.
    split; [exact Hw' |]. split; [cbn; lia | constructor]. }
  assert (Hone : forall (w' : world) (ev : event) (tail : list event),
            w_log w' = (w_log w ++ [ev]) ++ tail ->
            allowed ev -> Forall (fun ev' => is_api_call ev' = false) tail ->
            is_api_call ev = true ->
            exists l : list event, w_log w' = w_log w ++ l /\
              (length (List.filter is_api_call l) <= 1)%nat /\ Forall allowed l).
  { intros w' ev tail Hw' Hev Htail Hcall. exists (ev :: tail).
    split; [rewrite Hw', <- app_assoc; reflexivity |].
    assert (List.filter is_api_call tail = []) as Hnone.
    { clear Hw'. induction Htail as [| ev' tail' Hev' _ IH]; [reflexivity |].
      cbn. rewrite Hev'. exact IH. }
    split; [cbn; rewrite Hcall, Hnone; cbn; lia |].
    constructor; [exact Hev |].
    eapply Forall_impl; [exact Htail |].
    intros ev' Hno Hyes. congruence. }
  assert (Hone0 : forall (w' : world) (ev : event),
            w_log w' = w_log w ++ [ev] ->
            allowed ev -> is_api_call ev = true ->
            exists l : list event, w_log w' = w_log w ++ l /\
              (length (List.filter is_api_call l) <= 1)%nat /\ Forall allowed l).
  { intros w' ev Hw' Hev Hcall. apply (Hone w' ev []); try assumption;
      [rewrite app_nil_r; exact Hw' | constructor]. }
  unfold _get_gstin_info.
  destruct response as [response|]; [apply Hquiet; reflexivity |].
  destruct (validate_gstin gstin); [| apply Hquiet; reflexivity].
  unfold try_finally, try_except, bind, ret, reads, cache_set_value, modify.
  destruct (cache_get_value w "gst_server_error");
    [apply Hquiet; reflexivity |].
  destruct (use_public_api || negb (truthy_str (get_company_gstin w))) eqn:Esel.
  - assert (Hev : allowed (CallPublicAPI gstin)).
    { intros _. left. split; [reflexivity |].
      apply orb_true_iff in Esel as [Hup | Hno]; [left; exact Hup |].
      right. apply negb_true_iff in Hno. exact Hno. }
    unfold call_api, payload.
    destruct (reply_result (PublicAPI_get_gstin_info (w_now w) gstin))
      as [e | [resp|]]; try destruct (is_GSPServerError e);
      first
        [ apply (Hone0 _ (CallPublicAPI gstin));
          [reflexivity | exact Hev | reflexivity]
        | eapply (Hone _ (CallPublicAPI gstin) [_]);
          [reflexivity | exact Hev | repeat constructor | reflexivity] ].
  - apply orb_false_iff in Esel as [Hup Hcg]. apply negb_false_iff in Hcg.
    destruct (truthy_str_Some _ Hcg) as (cg & Hsome & Hne).
    destruct (get_company_gstin_row w cg Hsome) as [Hen Hrow].
    rewrite Hsome. change (default "" (Some cg)) with cg.
    assert (Hev : allowed (CallEInvoiceAPI cg gstin)).
    { intros _. right. exists cg. repeat (split; try assumption). }
    unfold call_api, payload.
    destruct (reply_result (EInvoiceAPI_get_gstin_info (w_now w) cg gstin))
      as [e | [resp|]]; try destruct (is_GSPServerError e);
      first
        [ apply (Hone0 _ (CallEInvoiceAPI cg gstin));
          [reflexivity | exact Hev | reflexivity]
        | eapply (Hone _ (CallEInvoiceAPI cg gstin) [_]);
          [reflexivity | exact Hev | repeat constructor | reflexivity] ].
Qed.

End SourceSelection.

(** ** Creating and updating records *)

Section UpsertBehaviour.
Context `{Services}.

Lemma truthy_str_nonempty name : name <> "" -> truthy_str (Some name) = true.
Proof. intros Hne. cbn. apply negb_true_iff, String.eqb_neq, Hne. Qed.

(** Saving a document that carries a non-empty gstin stores it there. *)
Lemma doc_save_named doc name w :
  gstin doc = Some name -> name <> "" ->
  doc_save doc w =
    (Returned (before_save (w_now w) doc),
     set_db (<[name := before_save (w_now w) doc]> (w_db w)) w).
Proof.
  intros Hg Hne. unfold doc_save.
  change (gstin (before_save (w_now w) doc)) with (gstin doc). rewrite Hg.
  rewrite (truthy_str_nonempty name Hne). reflexivity.
Qed.

(** A GSTIN that [validate_gstin] rejects stops the update before
    anything is fetched, cached or stored: the error reaches the caller,
    the store and the cache are as before, and the log has gained the
    call marker only. *)
Theorem create_or_update_rejects_invalid_gstin
    (w : world) (gstin : string) (transaction_date : option date)
    (callback : option callback_t) (use_public_api : bool) :
  validate_gstin gstin = false ->
  exists e w',
    create_or_update_gstin_status gstin None transaction_date callback
      use_public_api false w = (Raised e, w') /\
    w_db w' = w_db w /\ w_cache w' = w_cache w /\ w_now w' = w_now w /\
    w_log w' = w_log w ++ [Enter_create_or_update_gstin_status gstin false].
Proof.
  intros Hinvalid.
  unfold create_or_update_gstin_status, _get_gstin_info, bind, emit, modify.
  cbn. rewrite Hinvalid. cbn.
  do 2 eexists. split; [reflexivity |]. repeat split; reflexivity.
Qed.

(** What [before_save] makes of a document updated with a formatted
    public response: status, registration and cancellation date come from
    the response's [sts], [rgdt] and [cxdt]; the transporter status and
    the block flag are those of the document that was updated. *)
Lemma saved_formatted_response
    (now : Z) (base : gstin_doc) (with_gstin : bool) (response : public_response) :
  let doc := before_save now
               (doc_update base with_gstin (get_formatted_response response)) in
  status doc =
    match sts response with
    | Some s => Some (default s (dict_get GSTIN_STATUS s))
    | None => None
    end /\
  registration_date doc = parse_datetime true (rgdt response) /\
  cancelled_date doc =
    match parse_datetime true (cxdt response) with
    | Some c => Some c
    | None => if str_is (status doc) "Cancelled"
              then parse_datetime true (rgdt response) else None
    end /\
  transporter_id_status doc = transporter_id_status base /\
  last_updated_on doc = Some now /\
  (is_blocked doc = BlkInt 1 <-> is_blocked base = BlkStr "B") /\
  (is_blocked doc = BlkInt 1 \/ is_blocked doc = BlkInt 0).
Proof.
  cbn zeta.
  assert (status (before_save now
            (doc_update base with_gstin (get_formatted_response response))) =
          match sts response with
          | Some s => Some (default s (dict_get GSTIN_STATUS s))
          | None => None
          end) as Hst.
  { unfold before_save. cbn [status doc_update get_formatted_response r_status].
    change (default (status base) (Some (sts response))) with (sts response).
    destruct (sts response) as [s|]; [| reflexivity].
    destruct (dict_get GSTIN_STATUS s); reflexivity. }
  split; [exact Hst |]. split; [reflexivity |].
  split.
  { unfold before_save at 1.
    cbn [cancelled_date doc_update get_formatted_response r_cancelled_date
         r_registration_date registration_date].
    change (default (cancelled_date base)
              (Some (parse_datetime true (cxdt response))))
      with (parse_datetime true (cxdt response)).
    change (default (registration_date base)
              (Some (parse_datetime true (rgdt response))))
      with (parse_datetime true (rgdt response)).
    destruct (parse_datetime true (cxdt response)); reflexivity. }
  split; [reflexivity |]. split; [reflexivity |].
  pose proof (before_save_again now 0
                (doc_update base with_gstin (get_formatted_response response)))
    as (_ & _ & _ & _ & _ & _ & Hblk & _).
  cbn zeta in Hblk. split; [exact Hblk |].
  unfold before_save. cbn [is_blocked doc_update get_formatted_response r_is_blocked].
  destruct (is_blocked base) as [| s | n]; try (right; reflexivity).
  unfold GSTIN_BLOCK_STATUS. cbn [dict_get].
  destruct (String.eqb "U" s); [right; reflexivity |].
  destruct (String.eqb "B" s); [left | right]; reflexivity.
Qed.

(** With a response supplied by the caller nothing is validated, fetched
    or cached: whatever the GSTIN asked for, the settings and the
    circuit breaker, the response is written under its own gstin, and the
    world differs only by that record and the call marker.  The record
    has the response's status, expanded when it is a code, and its two
    dates as parsed, the cancellation date backfilled as on every save;
    transporter status and block flag are those of the record that was
    there before, if one was. *)
Theorem create_or_update_with_supplied_response
    (w : world) (asked name : string) (response : public_response)
    (transaction_date : option date) (use_public_api : bool) :
  pr_gstin response = Some name ->
  name <> "" ->
  (forall d, w_db w !! name = Some d -> gstin d = Some name) ->
  exists doc,
    create_or_update_gstin_status asked (Some response) transaction_date None
      use_public_api false w =
      (Returned (Some doc),
       set_db (<[name := doc]> (w_db w))
         (set_log (w_log w ++
            [Enter_create_or_update_gstin_status asked false]) w)) /\
    gstin doc = Some name /\
    last_updated_on doc = Some (w_now w) /\
    registration_date doc = parse_datetime true (rgdt response) /\
    status doc =
      match sts response with
      | Some s => Some (default s (dict_get GSTIN_STATUS s))
      | None => None
      end /\
    cancelled_date doc =
      match parse_datetime true (cxdt response) with
      | Some c => Some c
      | None => if str_is (status doc) "Cancelled"
                then parse_datetime true (rgdt response) else None
      end /\
    transporter_id_status doc =
      match w_db w !! name with
      | Some d => transporter_id_status d
      | None => None
      end /\
    (is_blocked doc = BlkInt 1 <->
       exists d, w_db w !! name = Some d /\ is_blocked d = BlkStr "B") /\
    (is_blocked doc = BlkInt 1 \/ is_blocked doc = BlkInt 0).
Proof.
  intros Hname Hne Hkeyed.
  unfold create_or_update_gstin_status.
  unfold bind at 1. unfold emit, modify.
  unfold bind at 1. unfold _get_gstin_info, ret.
  unfold bind at 1. unfold reads at 1.
  cbn [r_gstin get_formatted_response w_db set_log]. rewrite Hname.
  destruct (w_db w !! name) as [d|] eqn:Hd.
  - unfold bind. rewrite (doc_save_named _ name)
      by (try exact Hne; cbn; apply Hkeyed; reflexivity).
    eexists. split; [reflexivity |].
    destruct (saved_formatted_response (w_now w) d false response)
      as (Hst & Hreg & Hcan & Htr & Hlast & Hblk & Hbit).
    split; [change (gstin d = Some name); apply Hkeyed; reflexivity |].
    split; [exact Hlast |]. split; [exact Hreg |]. split; [exact Hst |].
    split; [exact Hcan |]. split; [exact Htr |].
    split; [| exact Hbit].
    rewrite Hblk. split.
    + intros Hb. exists d. split; [reflexivity | exact Hb].
    + intros (d' & [= <-] & Hb). exact Hb.
  - unfold bind. rewrite (doc_save_named _ name)
      by (try exact Hne; cbn; exact Hname).
    eexists. split; [reflexivity |].
    destruct (saved_formatted_response (w_now w) new_doc true response)
      as (Hst & Hreg & Hcan & Htr & Hlast & Hblk & Hbit).
    split; [exact Hname |].
    split; [exact Hlast |]. split; [exact Hreg |]. split; [exact Hst |].
    split; [exact Hcan |]. split; [exact Htr |].
    split; [| exact Hbit].
    rewrite Hblk. split.
    + intros Hb. discriminate Hb.
    + intros (d' & [=] & _).
Qed.

End UpsertBehaviour.

(** ** Looking a GSTIN up *)

Section LookupBehaviour.
Context `{Services}.

(** What a fetch from the public registry returns and leaves behind when
    the registry answers with a payload. *)
Lemma get_gstin_info_public_success
    (w : world) (asked : string) (use_public_api : bool) (p : public_response) :
  validate_gstin asked = true ->
  cache_get_value w "gst_server_error" = false ->
  use_public_api || negb (truthy_str (get_company_gstin w)) = true ->
  reply_result (PublicAPI_get_gstin_info (w_now w) asked) = inr (Some p) ->
  let now' := w_now w +
              Z.of_nat (reply_latency (PublicAPI_get_gstin_info (w_now w) asked)) in
  _get_gstin_info asked None use_public_api w =
    (Returned (Some (get_formatted_response p)),
     set_cache (<[asked := flag_set_at now' 180]> (w_cache w))
       (set_now now' (set_log (w_log w ++ [CallPublicAPI asked]) w))).
Proof.
  intros Hvalid Hflag Hsel Hreply. cbn zeta.
  unfold _get_gstin_info. rewrite Hvalid.
  unfold try_finally, try_except, bind, ret, reads, cache_set_value, modify.
  rewrite Hflag, Hsel. unfold call_api, payload. rewrite Hreply.
  reflexivity.
Qed.

(** What a refresh through the public registry amounts to when the
    registry answers with a payload that names a GSTIN. *)
Lemma create_or_update_public_success
    (w : world) (asked name : string) (transaction_date : option date)
    (use_public_api : bool) (p : public_response) :
  validate_gstin asked = true ->
  cache_get_value w "gst_server_error" = false ->
  use_public_api || negb (truthy_str (get_company_gstin w)) = true ->
  reply_result (PublicAPI_get_gstin_info (w_now w) asked) = inr (Some p) ->
  pr_gstin p = Some name -> name <> "" ->
  (forall d, w_db w !! name = Some d -> gstin d = Some name) ->
  let now' := w_now w +
              Z.of_nat (reply_latency (PublicAPI_get_gstin_info (w_now w) asked)) in
  let doc := before_save now'
               match w_db w !! name with
               | Some d => doc_update d false (get_formatted_response p)
               | None => doc_update new_doc true (get_formatted_response p)
               end in
  create_or_update_gstin_status asked None transaction_date None
    use_public_api false w =
    (Returned (Some doc),
     set_db (<[name := doc]> (w_db w))
       (set_cache (<[asked := flag_set_at now' 180]> (w_cache w))
          (set_now now'
             (set_log ((w_log w ++
                 [Enter_create_or_update_gstin_status asked false]) ++
                 [CallPublicAPI asked]) w)))).
Proof.
  intros Hvalid Hflag Hsel Hreply Hname Hne Hkeyed. cbn zeta.
  unfold create_or_update_gstin_status.
  unfold bind at 1. unfold emit, modify.
  set (w1 := set_log (w_log w ++
                [Enter_create_or_update_gstin_status asked false]) w).
  unfold bind at 1.
  rewrite (get_gstin_info_public_success w1 asked use_public_api p
             Hvalid Hflag Hsel Hreply).
  unfold bind at 1. unfold reads at 1. cbn [r_gstin get_formatted_response].
  rewrite Hname.
  change (w_db (set_cache _ _)) with (w_db w).
  destruct (w_db w !! name) as [d|] eqn:Hd.
  - unfold bind. rewrite (doc_save_named _ name)
      by (try exact Hne; cbn; apply Hkeyed; reflexivity).
    reflexivity.
  - unfold bind. rewrite (doc_save_named _ name)
      by (try exact Hne; cbn; exact Hname).
    reflexivity.
Qed.

(** A refresh through the public registry resets the block flag: the
    registry's payload has no block status, the stored record keeps its
    integer, and [before_save] turns every integer into 0. *)
Theorem public_refresh_clears_block
    (w : world) (asked name : string) (transaction_date : option date)
    (use_public_api : bool) (p : public_response) (d : gstin_doc) (b : Z) :
  validate_gstin asked = true ->
  cache_get_value w "gst_server_error" = false ->
  use_public_api || negb (truthy_str (get_company_gstin w)) = true ->
  reply_result (PublicAPI_get_gstin_info (w_now w) asked) = inr (Some p) ->
  pr_gstin p = Some name -> name <> "" ->
  w_db w !! name = Some d -> gstin d = Some name ->
  is_blocked d = BlkInt b ->
  exists doc w',
    create_or_update_gstin_status asked None transaction_date None
      use_public_api false w = (Returned (Some doc), w') /\
    w_db w' !! name = Some doc /\
    is_blocked doc = BlkInt 0.
Proof.
  intros Hvalid Hflag Hsel Hreply Hname Hne Hd Hg Hblk.
  rewrite (create_or_update_public_success w asked name transaction_date
             use_public_api p Hvalid Hflag Hsel Hreply Hname Hne)
    by (intros d' Hd'; congruence).
  do 2 eexists. split; [reflexivity |]. cbn [w_db set_db].
  split; [apply lookup_insert_eq |].
  rewrite Hd. cbn. rewrite Hblk. reflexivity.
Qed.

(** While the refresh policy is switched off or suppressed, or a record
    exists and no transaction date is given, an unforced lookup has no
    effect at all: it returns the record in the store, or nothing, sends
    no request and enqueues no job. *)
Theorem get_gstin_status_without_refresh
    (w : world) (gstin : string) (transaction_date : option date)
    (is_request_from_ui : Z) :
  gstin <> "" ->
  validate_gstin_status (w_settings w) = false \/
  is_api_enabled (w_settings w) = false \/
  sandbox_mode (w_settings w) = true \/
  cache_get_value w gstin = true \/
  (is_Some (w_db w !! gstin) /\ transaction_date = None) ->
  get_gstin_status gstin transaction_date is_request_from_ui 0 w =
    (Returned (w_db w !! gstin), w, []).
Proof.
  intros Hne Hquiet. apply String.eqb_neq in Hne.
  unfold get_gstin_status. rewrite Hne. cbn [truthy_int Z.eqb negb andb].
  assert (is_status_refresh_required w gstin transaction_date <> Some true) as Hno.
  { unfold is_status_refresh_required.
    destruct Hquiet as [-> | [-> | [-> | [-> | [[d Hd] ->]]]]];
      rewrite ?orb_true_r; cbn; try discriminate.
    rewrite Hd. destruct (_ || _); discriminate. }
  destruct (is_status_refresh_required w gstin transaction_date) as [[|]|];
    [congruence | reflexivity | reflexivity].
Qed.

(** Round trip: a record fetched from the public registry under the
    GSTIN asked for is what an unforced lookup of that GSTIN returns
    during the next 180 seconds, without a further request. *)
Theorem fetched_record_is_served
    (w : world) (asked : string) (transaction_date : option date)
    (use_public_api : bool) (p : public_response) :
  validate_gstin asked = true ->
  cache_get_value w "gst_server_error" = false ->
  use_public_api || negb (truthy_str (get_company_gstin w)) = true ->
  reply_result (PublicAPI_get_gstin_info (w_now w) asked) = inr (Some p) ->
  pr_gstin p = Some asked -> asked <> "" ->
  (forall d, w_db w !! asked = Some d -> gstin d = Some asked) ->
  exists doc w',
    create_or_update_gstin_status asked None transaction_date None
      use_public_api false w = (Returned (Some doc), w') /\
    forall (elapsed : Z) (transaction_date' : option date) (is_request_from_ui : Z),
      0 <= elapsed < 180 ->
      get_gstin_status asked transaction_date' is_request_from_ui 0
        (set_now (w_now w' + elapsed) w') =
      (Returned (Some doc), set_now (w_now w' + elapsed) w', []).
Proof.
  intros Hvalid Hflag Hsel Hreply Hname Hne Hkeyed.
  rewrite (create_or_update_public_success w asked asked transaction_date
             use_public_api p Hvalid Hflag Hsel Hreply Hname Hne Hkeyed).
  do 2 eexists. split; [reflexivity |].
  intros elapsed td ui Helapsed.
  rewrite get_gstin_status_without_refresh; [| exact Hne |].
  - cbn [w_db set_now set_db]. rewrite lookup_insert_eq. reflexivity.
  - right. right. right. left.
    eapply cache_get_value_live.
    + cbn [w_cache set_now set_db set_cache]. apply lookup_insert_eq.
    + cbn [w_now set_now set_db set_cache]. lia.
Qed.

End LookupBehaviour.

(** ** Entry points *)

Section EntryPointBehaviour.
Context `{Services}.

(** Without a callback the log of an update is the log of its fetch. *)
Lemma create_or_update_log_plain
    (w : world) (asked : string) (response : option public_response)
    (transaction_date : option date) (use_public_api is_transporter_id : bool) :
  w_log (snd (create_or_update_gstin_status asked response transaction_date
                None use_public_api is_transporter_id w)) =
  w_log (snd ((if is_transporter_id then get_transporter_id_info asked
               else _get_gstin_info asked response use_public_api)
                (set_log (w_log w ++
                   [Enter_create_or_update_gstin_status asked is_transporter_id])
                   w))).
Proof.
  unfold create_or_update_gstin_status.
  unfold bind at 1. unfold emit, modify.
  set (w1 := set_log _ w).
  set (fetch := if is_transporter_id then get_transporter_id_info asked
                else _get_gstin_info asked response use_public_api).
  unfold bind at 1.
  destruct (fetch w1) as [[[r|] | e] w2]; try reflexivity.
  unfold bind at 1. unfold reads at 1. cbn [snd].
  match goal with
  | |- context [doc_save ?d] =>
      pose proof (doc_save_log w2 d) as Hlog; unfold bind;
      destruct (doc_save d w2) as [[d'|e'] w3]; exact Hlog
  end.
Qed.

(** An update that asks for the public registry sends at most one
    request, and only to the public registry. *)
Lemma create_or_update_public_only
    (w : world) (asked : string) (transaction_date : option date) :
  exists l : list event,
    w_log (snd (create_or_update_gstin_status asked None transaction_date
                  None true false w)) =
      w_log w ++ Enter_create_or_update_gstin_status asked false :: l /\
    (length (List.filter is_api_call l) <= 1)%nat /\
    forall ev, ev ∈ l -> is_api_call ev = true -> ev = CallPublicAPI asked.
Proof.
  rewrite create_or_update_log_plain.
  set (w1 := set_log _ w).
  destruct (get_gstin_info_requests w1 asked None true)
    as (l & Hlog & Hlen & Hall).
  exists l. split; [| split; [exact Hlen |]].
  - cbv iota. rewrite Hlog. unfold w1. cbn [w_log set_log].
    rewrite <- app_assoc. reflexivity.
  - intros ev Hin Hcall.
    destruct (Hall ev Hin Hcall) as [[-> _] | (cg & _ & Hup & _)];
      [reflexivity | discriminate Hup].
Qed.

(** A forced lookup from the desk does not consult the refresh policy:
    whatever the settings, the suppression flag and the transaction date,
    it runs the update at once with the public registry as its only
    source, and enqueues nothing. *)
Theorem get_gstin_status_forced_from_ui
    (w : world) (gstin : string) (transaction_date : option date)
    (is_request_from_ui force_update : Z) :
  gstin <> "" -> is_request_from_ui <> 0 -> force_update <> 0 ->
  get_gstin_status gstin transaction_date is_request_from_ui force_update w =
    (create_or_update_gstin_status gstin None None None true false w, []) /\
  exists l : list event,
    w_log (snd (fst (get_gstin_status gstin transaction_date
                       is_request_from_ui force_update w))) =
      w_log w ++ Enter_create_or_update_gstin_status gstin false :: l /\
    (length (List.filter is_api_call l) <= 1)%nat /\
    forall ev, ev ∈ l -> is_api_call ev = true -> ev = CallPublicAPI gstin.
Proof.
  intros Hne Hui Hforce.
  assert (get_gstin_status gstin transaction_date is_request_from_ui
            force_update w =
          (create_or_update_gstin_status gstin None None None true false w, []))
    as Hrun.
  { unfold get_gstin_status, get_updated_gstin, truthy_int.
    apply String.eqb_neq in Hne. rewrite Hne.
    apply Z.eqb_neq in Hui, Hforce. rewrite Hui, Hforce. reflexivity. }
  split; [exact Hrun |]. rewrite Hrun. cbn [fst].
  apply create_or_update_public_only.
Qed.

(** The document method [update_gstin_status] is a hard refresh: at most
    one request, to the public registry, about the document's GSTIN. *)
Theorem update_gstin_status_public_only (w : world) (self : gstin_doc) :
  exists l : list event,
    w_log (snd (update_gstin_status self w)) =
      w_log w ++
      Enter_create_or_update_gstin_status (default "" (gstin self)) false :: l /\
    (length (List.filter is_api_call l) <= 1)%nat /\
    forall ev, ev ∈ l -> is_api_call ev = true ->
      ev = CallPublicAPI (default "" (gstin self)).
Proof.
  destruct (create_or_update_public_only w (default "" (gstin self)) None)
    as (l & Hlog & Hrest).
  exists l. split; [| exact Hrest].
  unfold update_gstin_status, bind, ret.
  destruct (create_or_update_gstin_status _ None None None true false w)
    as [[r | e] w']; exact Hlog.
Qed.

End EntryPointBehaviour.

(** ** Background refresh *)

Section BackgroundBehaviour.
Context `{Services}.

Lemma create_or_update_public_success_callback
    (w : world) (asked name : string) (transaction_date : option date)
    (callback : callback_t) (use_public_api : bool) (p : public_response) :
  validate_gstin asked = true ->
  cache_get_value w "gst_server_error" = false ->
  use_public_api || negb (truthy_str (get_company_gstin w)) = true ->
  reply_result (PublicAPI_get_gstin_info (w_now w) asked) = inr (Some p) ->
  pr_gstin p = Some name -> name <> "" ->
  (forall d, w_db w !! name = Some d -> gstin d = Some name) ->
  let now' := w_now w +
              Z.of_nat (reply_latency (PublicAPI_get_gstin_info (w_now w) asked)) in
  let doc := before_save now'
               match w_db w !! name with
               | Some d => doc_update d false (get_formatted_response p)
               | None => doc_update new_doc true (get_formatted_response p)
               end in
  create_or_update_gstin_status asked None transaction_date (Some callback)
    use_public_api false w =
    (let* _ := callback doc transaction_date in ret (Some doc))
      (set_db (<[name := doc]> (w_db w))
         (set_cache (<[asked := flag_set_at now' 180]> (w_cache w))
            (set_now now'
               (set_log ((w_log w ++
                   [Enter_create_or_update_gstin_status asked false]) ++
                   [CallPublicAPI asked]) w)))).
Proof.
  intros Hvalid Hflag Hsel Hreply Hname Hne Hkeyed. cbn zeta.
  unfold create_or_update_gstin_status.
  unfold bind at 1. unfold emit, modify.
  set (w1 := set_log (w_log w ++
                [Enter_create_or_update_gstin_status asked false]) w).
  unfold bind at 1.
  rewrite (get_gstin_info_public_success w1 asked use_public_api p
             Hvalid Hflag Hsel Hreply).
  unfold bind at 1. unfold reads at 1. cbn [r_gstin get_formatted_response].
  rewrite Hname.
  change (w_db (set_cache _ _)) with (w_db w).
  destruct (w_db w !! name) as [d|] eqn:Hd.
  - unfold bind at 1. rewrite (doc_save_named _ name)
      by (try exact Hne; cbn; apply Hkeyed; reflexivity).
    reflexivity.
  - unfold bind at 1. rewrite (doc_save_named _ name)
      by (try exact Hne; cbn; exact Hname).
    reflexivity.
Qed.

(** A lookup that is not from the desk and needs a refresh (or is forced)
    fetches nothing itself: it returns nothing, also when a record is in
    the store, leaves the world as it is, and enqueues one job on the
    short queue.  When a worker runs that job and the public registry
    answers with a registration date after the transaction date, the
    record is stored and returned, and the complaint about the date goes
    to the error log: nothing is raised, nothing is shown to a user. *)
Theorem get_gstin_status_in_background
    (w : world) (asked : string) (txn : date) (force_update : Z) :
  asked <> "" ->
  force_update <> 0 \/
  is_status_refresh_required w asked (Some txn) = Some true ->
  exists j,
    get_gstin_status asked (Some txn) 0 force_update w = (Returned None, w, [j]) /\
    job_queue j = "short" /\ job_enqueue_after_commit j = true /\
    forall (w0 : world) (p : public_response) (reg : date),
      validate_gstin asked = true ->
      cache_get_value w0 "gst_server_error" = false ->
      truthy_str (get_company_gstin w0) = false ->
      reply_result (PublicAPI_get_gstin_info (w_now w0) asked) = inr (Some p) ->
      pr_gstin p = Some asked ->
      (forall d, w_db w0 !! asked = Some d -> gstin d = Some asked) ->
      parse_datetime true (rgdt p) = Some reg ->
      toordinal txn < toordinal reg ->
      exists doc w1,
        run_job j w0 = (Returned (Some doc), w1) /\
        w_db w1 !! asked = Some doc /\
        last (w_log w1) =
          Some (LogError "Invalid Party GSTIN"
                  (Body (MsgRegisteredOn reg (Some asked)))) /\
        w_message_log w1 = w_message_log w0.
Proof.
  intros Hne Hneeded.
  eexists. split; [| split; [| split]].
  - unfold get_gstin_status, get_updated_gstin, truthy_int.
    apply String.eqb_neq in Hne. rewrite Hne.
    destruct Hneeded as [Hforce | Hreq].
    + apply Z.eqb_neq in Hforce. rewrite Hforce. reflexivity.
    + rewrite Hreq. cbn [default negb]. rewrite andb_false_r. reflexivity.
  - reflexivity.
  - reflexivity.
  - intros w0 p reg Hvalid Hflag Hnocg Hreply Hname Hkeyed Hreg Hbefore.
    unfold run_job. cbn [job_gstin job_transaction_date job_callback].
    rewrite (create_or_update_public_success_callback w0 asked asked (Some txn)
               _ false p Hvalid Hflag)
      by (try assumption; rewrite Hnocg; reflexivity).
    set (doc := before_save _ _).
    assert (registration_date doc = Some reg) as Hdocreg.
    { unfold doc. cbn. destruct (w_db w0 !! asked); cbn; exact Hreg. }
    assert (gstin doc = Some asked) as Hdocg.
    { unfold doc. cbn. destruct (w_db w0 !! asked) as [d|] eqn:Hd; cbn;
        [apply Hkeyed; reflexivity | exact Hname]. }
    unfold bind at 1. unfold _validate_gstin_info. rewrite Hdocreg.
    unfold bind at 1. unfold reads at 1.
    unfold date_diff, getdate_ordinal.
    replace (toordinal txn - toordinal reg <? 0) with true
      by (symmetry; apply Z.ltb_lt; lia).
    rewrite Hdocg. cbn.
    do 2 eexists. split; [reflexivity |]. cbn.
    split; [apply lookup_insert_eq |]. split; [apply last_snoc | reflexivity].
Qed.

End BackgroundBehaviour.

(** ** The transporter path *)

Section TransporterBehaviour.
Context `{Services}.

Lemma get_transporter_id_info_unavailable (w : world) (transporter_id : string) :
  enable_e_waybill (w_settings w) = false \/
  truthy_str (get_company_gstin w) = false ->
  get_transporter_id_info transporter_id w = (Returned None, w).
Proof.
  intros Hoff. unfold get_transporter_id_info, bind, reads, ret.
  destruct (enable_e_waybill (w_settings w)); cbn [negb]; [| reflexivity].
  destruct Hoff as [Hoff | Hoff]; [discriminate |].
  rewrite Hoff. reflexivity.
Qed.

Lemma get_transporter_id_info_asks
    (w : world) (transporter_id cg : string) :
  enable_e_waybill (w_settings w) = true ->
  get_company_gstin w = Some cg -> cg <> "" ->
  get_transporter_id_info transporter_id w =
    let reply := EWaybillAPI_get_transporter_details (w_now w) cg transporter_id in
    let w' := set_now (w_now w + Z.of_nat (reply_latency reply))
                (set_log (w_log w ++ [CallEWaybillAPI cg transporter_id]) w) in
    match reply_result reply with
    | inl e => (Raised e, w')
    | inr None => (Returned None, w')
    | inr (Some response) =>
        (Returned (Some
           {| r_gstin := Some transporter_id;
              r_registration_date := None;
              r_cancelled_date := None;
              r_status := None;
              r_is_blocked := None;
              r_transporter_id_status :=
                Some (Some (if truthy_str (transin response)
                            then "Active" else "Invalid")) |}), w')
    end.
Proof.
  intros Hon Hcg Hne. cbn zeta.
  unfold get_transporter_id_info, bind, reads, ret.
  rewrite Hon. cbn [negb]. cbv beta. rewrite Hcg.
  rewrite (truthy_str_nonempty cg Hne). cbn [negb]. cbv beta.
  change (default "" (Some cg)) with cg.
  unfold call_api.
  destruct (reply_result (EWaybillAPI_get_transporter_details (w_now w) cg
                            transporter_id)) as [e | [response|]]; reflexivity.
Qed.

(** An unknown transporter ID is dropped without a word when the
    e-waybill API cannot be used (e-waybill disabled, or no company GSTIN
    with credentials): nothing is requested, nothing is stored, and no
    warning is shown. *)
Theorem validate_gst_transporter_id_silent_without_e_waybill
    (w : world) (transporter_id : string) :
  transporter_id <> "" ->
  w_db w !! transporter_id = None ->
  (exists tail, transporter_id = String.append "88" tail) \/
  validate_gstin_check_digit transporter_id = false ->
  enable_e_waybill (w_settings w) = false \/
  truthy_str (get_company_gstin w) = false ->
  validate_gst_transporter_id transporter_id w =
    (Returned tt,
     set_log (w_log w ++
       [Enter_create_or_update_gstin_status transporter_id true]) w).
Proof.
  intros Hne Hnone Hpath Hoff.
  assert (String.eqb (String.substring 0 2 transporter_id) "88"
          || negb (validate_gstin_check_digit transporter_id) = true) as Hsel.
  { apply orb_true_iff. destruct Hpath as [Hpre | Hchk].
    - left. apply slice2_is_88, Hpre.
    - right. rewrite Hchk. reflexivity. }
  apply String.eqb_neq in Hne.
  unfold validate_gst_transporter_id. rewrite Hne.
  unfold bind at 1. unfold reads at 1. rewrite Hnone, Hsel.
  unfold bind at 1. unfold create_or_update_gstin_status.
  unfold bind at 1. unfold emit, modify.
  unfold bind at 1.
  rewrite get_transporter_id_info_unavailable by exact Hoff.
  reflexivity.
Qed.

(** On the transporter path an exception of the e-waybill API is not
    caught: it reaches the caller of [validate_gst_transporter_id], and
    neither the store nor the cache has changed. *)
Theorem validate_gst_transporter_id_propagates_api_error
    (w : world) (transporter_id cg : string) (e : exn) :
  transporter_id <> "" ->
  (w_db w !! transporter_id = None /\
   ((exists tail, transporter_id = String.append "88" tail) \/
    validate_gstin_check_digit transporter_id = false)) \/
  (exists d, w_db w !! transporter_id = Some d /\
             status d <> Some "Active" /\
             truthy_str (transporter_id_status d) = false) ->
  enable_e_waybill (w_settings w) = true ->
  get_company_gstin w = Some cg -> cg <> "" ->
  reply_result (EWaybillAPI_get_transporter_details (w_now w) cg transporter_id)
    = inl e ->
  exists w',
    validate_gst_transporter_id transporter_id w = (Raised e, w') /\
    w_db w' = w_db w /\ w_cache w' = w_cache w /\
    w_message_log w' = w_message_log w.
Proof.
  intros Hne Hpath Hon Hcg Hcgne Hreply.
  apply String.eqb_neq in Hne.
  unfold validate_gst_transporter_id. rewrite Hne.
  unfold bind at 1. unfold reads at 1.
  destruct Hpath as [[Hnone Hpath] | (d & Hd & Hst & Htr)].
  - assert (String.eqb (String.substring 0 2 transporter_id) "88"
            || negb (validate_gstin_check_digit transporter_id) = true) as Hsel.
    { apply orb_true_iff. destruct Hpath as [Hpre | Hchk].
      - left. apply slice2_is_88, Hpre.
      - right. rewrite Hchk. reflexivity. }
    rewrite Hnone, Hsel.
    unfold bind at 1. unfold create_or_update_gstin_status.
    unfold bind at 1. unfold emit, modify. unfold bind at 1.
    rewrite get_transporter_id_info_asks with (cg := cg)
      by first [exact Hon | exact Hcg | exact Hcgne].
    cbn zeta. cbn [w_now set_log]. rewrite Hreply.
    eexists. split; [reflexivity |]. repeat split.
  - rewrite Hd. apply str_is_false in Hst.
    unfold bind at 1. unfold ret at 1. rewrite Hst, Htr. cbn [negb andb].
    unfold bind at 1. unfold create_or_update_gstin_status.
    unfold bind at 1. unfold emit, modify. unfold bind at 1.
    rewrite get_transporter_id_info_asks with (cg := cg)
      by first [exact Hon | exact Hcg | exact Hcgne].
    cbn zeta. cbn [w_now set_log]. rewrite Hreply.
    eexists. split; [reflexivity |]. repeat split.
Qed.

(** A record that is Active, or that has any transporter status on
    record, settles the validation by itself: no request is sent and
    nothing is stored or logged, not even to re-check a status recorded as
    Invalid; the warning appears exactly when neither status is Active. *)
Theorem validate_gst_transporter_id_uses_record
    (w : world) (transporter_id : string) (d : gstin_doc) :
  transporter_id <> "" ->
  w_db w !! transporter_id = Some d ->
  status d = Some "Active" \/ truthy_str (transporter_id_status d) = true ->
  validate_gst_transporter_id transporter_id w =
    (Returned tt,
     if str_is (status d) "Active" || str_is (transporter_id_status d) "Active"
     then w
     else set_message_log
            (w_message_log w ++
               [(MsgTransporterSeemsInactive transporter_id, "orange")]) w).
Proof.
  intros Hne Hd Hsettled.
  apply String.eqb_neq in Hne.
  unfold validate_gst_transporter_id. rewrite Hne.
  unfold bind at 1. unfold reads at 1. rewrite Hd.
  unfold bind at 1. unfold ret at 1.
  assert (negb (str_is (status d) "Active")
          && negb (truthy_str (transporter_id_status d)) = false) as Hno.
  { destruct Hsettled as [Hact | Htr].
    - apply str_is_true in Hact. rewrite Hact. reflexivity.
    - rewrite Htr. apply andb_false_r. }
  rewrite Hno.
  unfold bind at 1. unfold ret at 1. unfold bind, payload, ret.
  destruct (str_is (status d) "Active" || str_is (transporter_id_status d) "Active");
    reflexivity.
Qed.

(** What a transporter lookup of a stored ID amounts to when the
    e-waybill API answers with a payload. *)
Lemma create_or_update_transporter_success
    (w : world) (transporter_id cg : string) (transaction_date : option date)
    (callback : option callback_t) (d : gstin_doc) (p : ewaybill_response) :
  enable_e_waybill (w_settings w) = true ->
  get_company_gstin w = Some cg -> cg <> "" ->
  reply_result (EWaybillAPI_get_transporter_details (w_now w) cg transporter_id)
    = inr (Some p) ->
  transporter_id <> "" ->
  w_db w !! transporter_id = Some d -> gstin d = Some transporter_id ->
  let now' := w_now w + Z.of_nat (reply_latency
                (EWaybillAPI_get_transporter_details (w_now w) cg transporter_id)) in
  let doc := before_save now'
    {| gstin := gstin d; status := status d; is_blocked := is_blocked d;
       registration_date := registration_date d;
       cancelled_date := cancelled_date d;
       last_updated_on := last_updated_on d;
       transporter_id_status :=
         Some (if truthy_str (transin p) then "Active" else "Invalid") |} in
  create_or_update_gstin_status transporter_id None transaction_date callback
    false true w =
    (let* _ := match callback with
               | Some callback => callback doc transaction_date
               | None => ret tt
               end in
     ret (Some doc))
      (set_db (<[transporter_id := doc]> (w_db w))
         (set_now now'
            (set_log ((w_log w ++
                [Enter_create_or_update_gstin_status transporter_id true]) ++
                [CallEWaybillAPI cg transporter_id]) w))).
Proof.
  intros Hon Hcg Hcgne Hreply Hne Hd Hg. cbn zeta.
  unfold create_or_update_gstin_status.
  unfold bind at 1. unfold emit, modify. unfold bind at 1.
  rewrite get_transporter_id_info_asks with (cg := cg)
    by first [exact Hon | exact Hcg | exact Hcgne].
  cbn zeta. cbn [w_now set_log]. rewrite Hreply.
  unfold bind at 1. unfold reads at 1. cbn [r_gstin].
  change (w_db (set_now _ _)) with (w_db w). rewrite Hd.
  unfold bind at 1.
  rewrite (doc_save_named _ transporter_id) by (try exact Hne; cbn; exact Hg).
  reflexivity.
Qed.

(** The fallback at work: for a stored ID that is not Active as a GSTIN
    and has no transporter status yet, the answer of the e-waybill API is
    recorded, and the user is warned exactly when the API does not know
    the ID as a transporter.  The call returns in both cases, and the
    GSTIN's registration date stays as it was. *)
Theorem validate_gst_transporter_id_fallback_records
    (w : world) (transporter_id cg : string) (d : gstin_doc)
    (p : ewaybill_response) :
  transporter_id <> "" ->
  w_db w !! transporter_id = Some d -> gstin d = Some transporter_id ->
  status d <> Some "Active" -> status d <> Some "ACT" ->
  truthy_str (transporter_id_status d) = false ->
  enable_e_waybill (w_settings w) = true ->
  get_company_gstin w = Some cg -> cg <> "" ->
  reply_result (EWaybillAPI_get_transporter_details (w_now w) cg transporter_id)
    = inr (Some p) ->
  exists doc w',
    validate_gst_transporter_id transporter_id w = (Returned tt, w') /\
    w_db w' !! transporter_id = Some doc /\
    transporter_id_status doc =
      Some (if truthy_str (transin p) then "Active" else "Invalid") /\
    registration_date doc = registration_date d /\
    w_cache w' = w_cache w /\
    w_message_log w' =
      (if truthy_str (transin p) then w_message_log w
       else w_message_log w ++
              [(MsgTransporterSeemsInactive transporter_id, "orange")]).
Proof.
  intros Hne Hd Hg Hst Hcode Htr Hon Hcg Hcgne Hreply.
  assert (str_is (status (before_save 0 d)) "Active" = false) as Hstill.
  { apply str_is_false. unfold before_save. cbn [status].
    destruct (status d) as [s|]; [| discriminate].
    unfold GSTIN_STATUS. cbn [dict_get].
    destruct (String.eqb "ACT" s) eqn:E1;
      [apply String.eqb_eq in E1; congruence |].
    repeat match goal with
           | |- context [String.eqb ?k s] => destruct (String.eqb k s)
           end; try discriminate.
    intros [= ->]. congruence. }
  apply String.eqb_neq in Hne as Hneb. apply str_is_false in Hst.
  unfold validate_gst_transporter_id. rewrite Hneb.
  unfold bind at 1. unfold reads at 1. rewrite Hd.
  unfold bind at 1. unfold ret at 1. rewrite Hst, Htr. cbn [negb andb].
  unfold bind at 1.
  rewrite (create_or_update_transporter_success w transporter_id cg None _ d p
             Hon Hcg Hcgne Hreply Hne Hd Hg).
  cbv beta.
  set (doc := before_save _ _).
  assert (str_is (status doc) "Active" = false) as Hdocst by exact Hstill.
  assert (transporter_id_status doc =
          Some (if truthy_str (transin p) then "Active" else "Invalid"))
    as Hdoctr by reflexivity.
  assert (registration_date doc = registration_date d) as Hdocreg by reflexivity.
  clearbody doc.
  unfold bind at 1. unfold _validate_gst_transporter_id_info.
  rewrite Hdoctr.
  destruct (truthy_str (transin p)) eqn:Etr.
  - cbn. rewrite Hdocst, Hdoctr. cbn.
    do 2 eexists. split; [reflexivity |]. cbn.
    split; [apply lookup_insert_eq |]. repeat split; assumption.
  - cbn. rewrite Hdocst, Hdoctr. cbn.
    do 2 eexists. split; [reflexivity |]. cbn.
    split; [apply lookup_insert_eq |]. repeat split; assumption.
Qed.

(** A transporter lookup of a stored GSTIN leaves its status and dates
    alone but stamps the record as just updated and sets no suppression
    flag; with a refresh interval of at least a day the refresh policy
    then takes the GSTIN status for fresh, though it was not fetched. *)
Theorem update_transporter_id_status_postpones_refresh
    (w : world) (transporter_id cg : string) (d : gstin_doc)
    (p : ewaybill_response) :
  transporter_id <> "" ->
  w_db w !! transporter_id = Some d -> gstin d = Some transporter_id ->
  status d = Some "Active" \/ status d = Some "Cancelled" ->
  enable_e_waybill (w_settings w) = true ->
  get_company_gstin w = Some cg -> cg <> "" ->
  reply_result (EWaybillAPI_get_transporter_details (w_now w) cg transporter_id)
    = inr (Some p) ->
  validate_gstin_status (w_settings w) = true ->
  is_api_enabled (w_settings w) = true ->
  sandbox_mode (w_settings w) = false ->
  w_cache w !! transporter_id = None ->
  1 <= gstin_status_refresh_interval (w_settings w) ->
  exists doc w',
    update_transporter_id_status d w = (Returned tt, w') /\
    w_db w' !! transporter_id = Some doc /\
    status doc = status d /\
    registration_date doc = registration_date d /\
    last_updated_on doc = Some (w_now w') /\
    w_cache w' = w_cache w /\
    forall transaction_date,
      is_status_refresh_required w' transporter_id (Some transaction_date)
        = Some false.
Proof.
  intros Hne Hd Hg Hst Hon Hcg Hcgne Hreply Hval Hapi Hsand Hcache Hint.
  unfold update_transporter_id_status. rewrite Hg.
  change (default "" (Some transporter_id)) with transporter_id.
  unfold bind at 1.
  rewrite (create_or_update_transporter_success w transporter_id cg None None d p
             Hon Hcg Hcgne Hreply Hne Hd Hg).
  cbn zeta.
  set (doc := before_save _ _).
  assert (status doc = status d) as Hdocst.
  { unfold doc, before_save. cbn [status].
    destruct Hst as [-> | ->]; reflexivity. }
  unfold bind, ret.
  do 2 eexists. split; [reflexivity |].
  cbn [w_db w_cache w_now set_db set_now set_log].
  split; [apply lookup_insert_eq |]. split; [exact Hdocst |].
  split; [reflexivity |]. split; [reflexivity |]. split; [reflexivity |].
  intros td. unfold is_status_refresh_required, cache_get_value.
  cbn [w_settings w_cache w_db w_now set_db set_now set_log].
  rewrite Hval, Hapi, Hsand, Hcache. cbn [negb orb].
  rewrite lookup_insert_eq. rewrite Hdocst.
  assert (str_is (status d) "Active" || str_is (status d) "Cancelled" = true)
    as ->.
  { destruct Hst as [-> | ->]; reflexivity. }
  cbn [negb]. unfold date_diff_now, doc.
  cbn [last_updated_on before_save w_now].
  rewrite Z.sub_diag. f_equal. apply Z.leb_gt. lia.
Qed.

End TransporterBehaviour.

(** ** What the store never loses *)

Section StoreBehaviour.
Context `{Services}.

Lemma doc_save_keys_kept w doc : keys_kept w (snd (doc_save doc w)).
Proof.
  unfold keys_kept, doc_save. intros Hinv.
  destruct (gstin (before_save (w_now w) doc)) as [name|] eqn:Hg; [| exact Hinv].
  destruct (truthy_str (Some name)) eqn:Hname; [| exact Hinv].
  cbn. intros name' d Hlook.
  destruct (decide (name = name')) as [<- | Hne].
  - rewrite lookup_insert_eq in Hlook. injection Hlook as <-.
    split; [exact Hg |].
    cbn in Hname. apply negb_true_iff, String.eqb_neq in Hname. exact Hname.
  - rewrite lookup_insert_ne in Hlook by exact Hne. eapply Hinv, Hlook.
Qed.

Lemma doc_save_records_kept w doc : records_kept w (snd (doc_save doc w)).
Proof.
  unfold records_kept, doc_save. intros name Hsome.
  destruct (gstin (before_save (w_now w) doc)) as [name'|]; [| exact Hsome].
  destruct (truthy_str (Some name')); [| exact Hsome].
  cbn. destruct (decide (name' = name)) as [<- | Hne].
  - rewrite lookup_insert_eq. eauto.
  - rewrite lookup_insert_ne by exact Hne. exact Hsome.
Qed.

(** A preorder on worlds that depends on the store only and that saving
    respects is respected by every entry point. *)
Lemma stable_entry_points (R : world -> world -> Prop) :
  (forall w, R w w) ->
  (forall w1 w2 w3, R w1 w2 -> R w2 w3 -> R w1 w3) ->
  (forall w w', w_db w' = w_db w -> R w w') ->
  (forall w doc, R w (snd (doc_save doc w))) ->
  forall w,
    (forall transporter_id,
       R w (snd (validate_gst_transporter_id transporter_id w))) /\
    (forall gstin response transaction_date use_public_api is_transporter_id,
       R w (snd (create_or_update_gstin_status gstin response transaction_date
                   None use_public_api is_transporter_id w))) /\
    (forall gstin transaction_date is_request_from_ui force_update,
       R w (snd (fst (get_gstin_status gstin transaction_date
                        is_request_from_ui force_update w)))) /\
    (forall gstin transaction_date j,
       In j (snd (get_gstin_status gstin transaction_date 0 1 w)) ->
       R w (snd (run_job j w))) /\
    (forall self, R w (snd (update_gstin_status self w))) /\
    (forall self, R w (snd (update_transporter_id_status self w))).
Proof.
  intros Hrefl Htrans Hframe Hsave w.
  assert (Hcou : forall gstin response td (cb : option callback_t) up tr,
            (forall f doc td', cb = Some f -> stable R (f doc td')) ->
            stable R (create_or_update_gstin_status gstin response td cb up tr)).
  { intros. apply stable_create_or_update_gstin_status; try assumption;
      intros; apply Hframe; reflexivity. }
  assert (Hplain : forall gstin response td up tr,
            stable R (create_or_update_gstin_status gstin response td None up tr)).
  { intros. apply Hcou. intros f doc td' [=]. }
  split; [| split; [| split; [| split; [| split]]]].
  - intros transporter_id.
    apply stable_validate_gst_transporter_id; try assumption;
      intros; apply Hframe; reflexivity.
  - intros. apply Hplain.
  - intros gstin td ui force.
    unfold get_gstin_status, get_updated_gstin.
    destruct (String.eqb gstin ""); [apply Hrefl |].
    destruct (negb (truthy_int force) && _); [apply Hrefl |].
    destruct (truthy_int ui); [apply Hplain | apply Hrefl].
  - intros gstin td j.
    unfold get_gstin_status, get_updated_gstin.
    destruct (String.eqb gstin ""); [intros [] |].
    unfold truthy_int. cbn [Z.eqb negb andb snd In].
    intros [<- | []]. unfold run_job.
    cbn [job_gstin job_transaction_date job_callback].
    refine (Hcou _ _ _ _ _ _ _ w). intros f doc td' Hf.
    assert (f = fun doc transaction_date =>
                  _validate_gstin_info (Some doc) transaction_date false)
      as -> by congruence.
    intros w0.
    change (R w0 (snd (_validate_gstin_info (Some doc) td' false w0))).
    destruct (validators_in_background_only_log (Some doc) td' w0)
      as [(w' & Hrun & Hw') _].
    rewrite Hrun. cbn [snd].
    destruct Hw' as [-> | [m ->]]; [apply Hrefl | apply Hframe; reflexivity].
  - intros self. unfold update_gstin_status.
    apply stable_bind; try assumption; [apply Hplain |].
    intros ? w0. apply Hrefl.
  - intros self. unfold update_transporter_id_status.
    apply stable_bind; try assumption; [apply Hplain |].
    intros ? w0. apply Hrefl.
Qed.

(** Every record stays under its own, non-empty GSTIN: whatever entry
    point runs, a store in which each record's [gstin] is the key it is
    filed under is again such a store afterwards. *)
Theorem store_stays_well_keyed (w : world) :
  store_well_keyed (w_db w) ->
  (forall transporter_id,
     store_well_keyed (w_db (snd (validate_gst_transporter_id transporter_id w)))) /\
  (forall gstin response transaction_date use_public_api is_transporter_id,
     store_well_keyed
       (w_db (snd (create_or_update_gstin_status gstin response transaction_date
                     None use_public_api is_transporter_id w)))) /\
  (forall gstin transaction_date is_request_from_ui force_update,
     store_well_keyed
       (w_db (snd (fst (get_gstin_status gstin transaction_date
                          is_request_from_ui force_update w))))) /\
  (forall gstin transaction_date j,
     In j (snd (get_gstin_status gstin transaction_date 0 1 w)) ->
     store_well_keyed (w_db (snd (run_job j w)))) /\
  (forall self, store_well_keyed (w_db (snd (update_gstin_status self w)))) /\
  (forall self,
     store_well_keyed (w_db (snd (update_transporter_id_status self w)))).
Proof.
  intros Hinv.
  destruct (stable_entry_points keys_kept) with (w := w)
    as (H1 & H2 & H3 & H4 & H5 & H6).
  - intros w0 H0; exact H0.
  - intros w1 w2 w3 H12 H23 H1. apply H23, H12, H1.
  - intros w0 w' Hdb H0. rewrite Hdb. exact H0.
  - apply doc_save_keys_kept.
  - split; [| split; [| split; [| split; [| split]]]]; intros.
    + apply H1, Hinv.
    + apply H2, Hinv.
    + apply H3, Hinv.
    + eapply H4; [eassumption | exact Hinv].
    + apply H5, Hinv.
    + apply H6, Hinv.
Qed.

(** No entry point deletes a record: a GSTIN that has a record before
    the call has one after it. *)
Theorem records_are_never_deleted (w : world) (name : string) :
  is_Some (w_db w !! name) ->
  (forall transporter_id,
     is_Some (w_db (snd (validate_gst_transporter_id transporter_id w)) !! name)) /\
  (forall gstin response transaction_date use_public_api is_transporter_id,
     is_Some
       (w_db (snd (create_or_update_gstin_status gstin response transaction_date
                     None use_public_api is_transporter_id w)) !! name)) /\
  (forall gstin transaction_date is_request_from_ui force_update,
     is_Some
       (w_db (snd (fst (get_gstin_status gstin transaction_date
                          is_request_from_ui force_update w))) !! name)) /\
  (forall gstin transaction_date j,
     In j (snd (get_gstin_status gstin transaction_date 0 1 w)) ->
     is_Some (w_db (snd (run_job j w)) !! name)) /\
  (forall self, is_Some (w_db (snd (update_gstin_status self w)) !! name)) /\
  (forall self,
     is_Some (w_db (snd (update_transporter_id_status self w)) !! name)).
Proof.
  intros Hsome.
  destruct (stable_entry_points records_kept) with (w := w)
    as (H1 & H2 & H3 & H4 & H5 & H6).
  - intros w0 k H0; exact H0.
  - intros w1 w2 w3 H12 H23 k H1. apply H23, H12, H1.
  - intros w0 w' Hdb k H0. rewrite Hdb. exact H0.
  - apply doc_save_records_kept.
  - split; [| split; [| split; [| split; [| split]]]]; intros.
    + apply H1, Hsome.
    + apply H2, Hsome.
    + apply H3, Hsome.
    + eapply H4; [eassumption | exact Hsome].
    + apply H5, Hsome.
    + apply H6, Hsome.
Qed.

End StoreBehaviour.

(** ** Records from the e-invoice API, and waiting *)

Section EInvoiceBehaviour.
Context `{Services}.

(** A record fetched through the e-invoice API is stored under the GSTIN
    asked for, with the status code expanded to its name, the block flag
    set exactly for block status "B", and the registration date as
    parsed; the request went to the e-invoice API with the configured
    company GSTIN, and the suppression flag of the GSTIN is set. *)
Theorem einvoice_record_is_normalised
    (w : world) (asked cg : string) (transaction_date : option date)
    (r : einvoice_response) :
  validate_gstin asked = true ->
  cache_get_value w "gst_server_error" = false ->
  get_company_gstin w = Some cg -> cg <> "" ->
  reply_result (EInvoiceAPI_get_gstin_info (w_now w) cg asked) = inr (Some r) ->
  asked <> "" ->
  (forall d, w_db w !! asked = Some d -> gstin d = Some asked) ->
  exists doc w',
    create_or_update_gstin_status asked None transaction_date None false false w
      = (Returned (Some doc), w') /\
    w_db w' !! asked = Some doc /\
    (forall code name,
       Status r = Some code -> dict_get GSTIN_STATUS code = Some name ->
       status doc = Some name) /\
    (is_blocked doc = BlkInt 1 <-> BlkStatus r = Some "B") /\
    registration_date doc = parse_datetime false (DtReg r) /\
    last_updated_on doc = Some (w_now w') /\
    w_log w' = w_log w ++
      [Enter_create_or_update_gstin_status asked false;
       CallEInvoiceAPI cg asked] /\
    w_cache w' !! asked = Some (flag_set_at (w_now w') 180).
Proof.
  intros Hvalid Hflag Hcg Hcgne Hreply Hne Hkeyed.
  unfold create_or_update_gstin_status.
  unfold bind at 1. unfold emit, modify.
  set (w1 := set_log _ w).
  assert (_get_gstin_info asked None false w1 =
          (Returned (Some
             {| r_gstin := Some asked;
                r_registration_date := Some (parse_datetime false (DtReg r));
                r_cancelled_date := Some (parse_datetime false (DtDReg r));
                r_status := Some (Status r);
                r_is_blocked := Some (BlkStatus r);
                r_transporter_id_status := None |}),
           set_cache
             (<[asked := flag_set_at
                  (w_now w + Z.of_nat (reply_latency
                     (EInvoiceAPI_get_gstin_info (w_now w) cg asked))) 180]>
                (w_cache w))
             (set_now
                (w_now w + Z.of_nat (reply_latency
                   (EInvoiceAPI_get_gstin_info (w_now w) cg asked)))
                (set_log (w_log w1 ++ [CallEInvoiceAPI cg asked]) w1))))
    as Hfetch.
  { unfold _get_gstin_info. rewrite Hvalid.
    unfold try_finally, try_except, bind, ret, reads, cache_set_value, modify.
    change (cache_get_value w1 "gst_server_error")
      with (cache_get_value w "gst_server_error").
    rewrite Hflag. cbv beta iota.
    change (get_company_gstin w1) with (get_company_gstin w).
    rewrite Hcg. rewrite (truthy_str_nonempty cg Hcgne).
    cbn [orb negb]. cbv beta iota. change (default "" (Some cg)) with cg.
    unfold call_api, payload. change (w_now w1) with (w_now w).
    rewrite Hreply. reflexivity. }
  unfold bind at 1. rewrite Hfetch.
  unfold bind at 1. unfold reads at 1. cbn [r_gstin].
  change (w_db (set_cache _ _)) with (w_db w).
  unfold bind.
  destruct (w_db w !! asked) as [d|] eqn:Hd.
  - rewrite (doc_save_named _ asked)
      by (try exact Hne; cbn; apply Hkeyed; reflexivity).
    do 2 eexists. split; [reflexivity |].
    cbn [w_db w_log w_cache w_now set_db set_cache set_now set_log].
    split; [apply lookup_insert_eq |].
    split; [intros code name Hcode Hname; cbn -[dict_get GSTIN_STATUS];
            rewrite Hcode, Hname; reflexivity |].
    split.
    { pose proof (before_save_again
        (w_now w + Z.of_nat (reply_latency
           (EInvoiceAPI_get_gstin_info (w_now w) cg asked))) 0
        (doc_update d false
           {| r_gstin := Some asked;
              r_registration_date := Some (parse_datetime false (DtReg r));
              r_cancelled_date := Some (parse_datetime false (DtDReg r));
              r_status := Some (Status r);
              r_is_blocked := Some (BlkStatus r);
              r_transporter_id_status := None |}))
        as (_ & _ & _ & _ & _ & _ & Hblk & _).
      cbn zeta in Hblk. rewrite Hblk. cbn.
      destruct (BlkStatus r) as [s|]; split; congruence. }
    split; [reflexivity |]. split; [reflexivity |].
    split; [unfold w1; cbn; rewrite <- app_assoc; reflexivity |].
    apply lookup_insert_eq.
  - rewrite (doc_save_named _ asked) by (try exact Hne; reflexivity).
    do 2 eexists. split; [reflexivity |].
    cbn [w_db w_log w_cache w_now set_db set_cache set_now set_log].
    split; [apply lookup_insert_eq |].
    split; [intros code name Hcode Hname; cbn -[dict_get GSTIN_STATUS];
            rewrite Hcode, Hname; reflexivity |].
    split.
    { pose proof (before_save_again
        (w_now w + Z.of_nat (reply_latency
           (EInvoiceAPI_get_gstin_info (w_now w) cg asked))) 0
        (doc_update new_doc true
           {| r_gstin := Some asked;
              r_registration_date := Some (parse_datetime false (DtReg r));
              r_cancelled_date := Some (parse_datetime false (DtDReg r));
              r_status := Some (Status r);
              r_is_blocked := Some (BlkStatus r);
              r_transporter_id_status := None |}))
        as (_ & _ & _ & _ & _ & _ & Hblk & _).
      cbn zeta in Hblk. rewrite Hblk. cbn.
      destruct (BlkStatus r) as [s|]; split; congruence. }
    split; [reflexivity |]. split; [reflexivity |].
    split; [unfold w1; cbn; rewrite <- app_assoc; reflexivity |].
    apply lookup_insert_eq.
Qed.

Lemma datetime_ordinal_mono t1 t2 :
  t1 <= t2 -> datetime_ordinal t1 <= datetime_ordinal t2.
Proof.
  intros Hle. unfold datetime_ordinal.
  pose proof (Z.div_le_mono t1 t2 86400 ltac:(lia) Hle). lia.
Qed.

(** Waiting does not make a due refresh go away: if the policy asks for
    a refresh now, it asks for it at every later time, as long as
    settings, cache and store stay as they are. *)
Theorem refresh_stays_required
    (w : world) (gstin : string) (transaction_date : option date) (later : Z) :
  w_now w <= later ->
  is_status_refresh_required w gstin transaction_date = Some true ->
  is_status_refresh_required (set_now later w) gstin transaction_date = Some true.
Proof.
  intros Hlater. unfold is_status_refresh_required, cache_get_value.
  cbn [w_settings w_cache w_db w_now set_now].
  destruct (negb (validate_gstin_status (w_settings w))
            || negb (is_api_enabled (w_settings w))
            || sandbox_mode (w_settings w)); cbn [orb]; [discriminate |].
  assert (forall e : cache_entry,
            (if w_now w <? ce_set_at e + ce_expires_in_sec e
             then ce_value e else false) = false ->
            (if later <? ce_set_at e + ce_expires_in_sec e
             then ce_value e else false) = false) as Hexp.
  { intros e. destruct (w_now w <? _) eqn:E1.
    - intros ->. destruct (later <? _); reflexivity.
    - intros _. apply Z.ltb_ge in E1.
      replace (later <? ce_set_at e + ce_expires_in_sec e) with false
        by (symmetry; apply Z.ltb_ge; lia).
      reflexivity. }
  destruct (w_cache w !! gstin) as [e|].
  - specialize (Hexp e).
    destruct (if w_now w <? ce_set_at e + ce_expires_in_sec e
              then ce_value e else false); [discriminate |].
    rewrite (Hexp eq_refl). clear Hexp.
    destruct (w_db w !! gstin) as [doc|]; [| trivial].
    destruct transaction_date; [| trivial].
    destruct (negb (str_is (status doc) "Active"
                    || str_is (status doc) "Cancelled")); [trivial |].
    intros [= Hdue]. f_equal. apply Z.leb_le. apply Z.leb_le in Hdue.
    unfold date_diff_now in *. cbn [w_now set_now].
    pose proof (datetime_ordinal_mono _ _ Hlater).
    destruct (last_updated_on doc); lia.
  - clear Hexp.
    destruct (w_db w !! gstin) as [doc|]; [| trivial].
    destruct transaction_date; [| trivial].
    destruct (negb (str_is (status doc) "Active"
                    || str_is (status doc) "Cancelled")); [trivial |].
    intros [= Hdue]. f_equal. apply Z.leb_le. apply Z.leb_le in Hdue.
    unfold date_diff_now in *. cbn [w_now set_now].
    pose proof (datetime_ordinal_mono _ _ Hlater).
    destruct (last_updated_on doc); lia.
Qed.

End EInvoiceBehaviour.

(** ** Further scenarios *)

Example get_company_gstin_connected :
  get_company_gstin (connected_world ∅) = Some sample_company_gstin.
Proof. reflexivity. Qed.

(** A string of the wrong length is rejected before anything happens. *)
Lemma scenario_invalid_gstin :
  exists e w',
    create_or_update_gstin_status (H := sample_services active_reply)
      "24AAUPV7468" None None None false false (sample_world ∅) = (Raised e, w') /\
    w_db w' = ∅ /\ w_cache w' = ∅ /\ w_now w' = 1700000000 /\
    w_log w' = [Enter_create_or_update_gstin_status "24AAUPV7468" false].
Proof.
  apply (create_or_update_rejects_invalid_gstin
           (H := sample_services active_reply)
           (sample_world ∅) "24AAUPV7468" None None false).
  reflexivity.
Defined.

(** A supplied response is stored although the circuit breaker would
    stop a fetch and the GSTIN asked for is not even well-formed; the
    record that was there, cancelled and flagged by the transporter API,
    becomes Active with the response's registration date and no
    cancellation date, and keeps its transporter status. *)
Lemma scenario_supplied_response :
  exists doc,
    create_or_update_gstin_status (H := sample_services (failing GSPServerError))
      "?" (Some active_payload) None None false false
      (sample_world {[ sample_gstin := doc_cancelled_flagged ]}) =
      (Returned (Some doc),
       set_db (<[sample_gstin := doc]> {[ sample_gstin := doc_cancelled_flagged ]})
         (set_log [Enter_create_or_update_gstin_status "?" false]
            (sample_world {[ sample_gstin := doc_cancelled_flagged ]}))) /\
    gstin doc = Some sample_gstin /\
    last_updated_on doc = Some 1700000000 /\
    registration_date doc = Some (mkdate 2018 7 1) /\
    status doc = Some "Active" /\
    cancelled_date doc = None /\
    transporter_id_status doc = Some "Invalid" /\
    is_blocked doc = BlkInt 0.
Proof.
  destruct (create_or_update_with_supplied_response
              (H := sample_services (failing GSPServerError))
              (sample_world {[ sample_gstin := doc_cancelled_flagged ]})
              "?" sample_gstin active_payload None false)
    as (doc & Hrun & Hg & Hlast & Hreg & Hst & Hcan & Htr & Hblk & Hbit).
  - reflexivity.
  - discriminate.
  - intros d Hd. cbn [w_db sample_world] in Hd.
    apply lookup_singleton_Some in Hd as [_ <-]. reflexivity.
  - exists doc. split; [exact Hrun |]. split; [exact Hg |].
    split; [exact Hlast |]. split; [exact Hreg |].
    assert (status doc = Some "Active") as Hactive by exact Hst.
    split; [exact Hactive |].
    split; [rewrite Hcan, Hactive; reflexivity |].
    split; [exact Htr |].
    destruct Hbit as [Hone | Hzero]; [| exact Hzero].
    apply Hblk in Hone as (d & Hd & Hb). cbn [w_db sample_world] in Hd.
    apply lookup_singleton_Some in Hd as [_ <-]. discriminate Hb.
Defined.

(** A blocked record comes out of a public refresh unblocked. *)
Lemma scenario_block_cleared :
  exists doc w',
    create_or_update_gstin_status (H := sample_services active_reply)
      sample_gstin None None None true false
      (sample_world {[ sample_gstin := doc_blocked ]})
      = (Returned (Some doc), w') /\
    w_db w' !! sample_gstin = Some doc /\
    is_blocked doc = BlkInt 0.
Proof.
  apply (public_refresh_clears_block (H := sample_services active_reply)
           (sample_world {[ sample_gstin := doc_blocked ]})
           sample_gstin sample_gstin None true active_payload doc_blocked 1);
    first [reflexivity | discriminate].
Defined.

Lemma scenario_lookup_with_validation_off :
  get_gstin_status (H := sample_services active_reply)
    sample_gstin (Some (mkdate 2023 11 15)) 1 0 validation_off_world =
  (Returned None, validation_off_world, []).
Proof.
  apply (get_gstin_status_without_refresh (H := sample_services active_reply)
           validation_off_world sample_gstin (Some (mkdate 2023 11 15)) 1).
  - discriminate.
  - left. reflexivity.
Defined.

Lemma scenario_fetched_then_served :
  exists doc w',
    create_or_update_gstin_status (H := sample_services active_reply)
      sample_gstin None None None true false (sample_world ∅)
      = (Returned (Some doc), w') /\
    get_gstin_status (H := sample_services active_reply)
      sample_gstin (Some (mkdate 2023 11 15)) 0 0 (set_now (w_now w' + 60) w') =
    (Returned (Some doc), set_now (w_now w' + 60) w', []).
Proof.
  destruct (fetched_record_is_served (H := sample_services active_reply)
              (sample_world ∅) sample_gstin None true active_payload)
    as (doc & w' & Hrun & Hserved); try reflexivity.
  - discriminate.
  - intros d Hd. vm_compute in Hd. discriminate Hd.
  - exists doc, w'. split; [exact Hrun |]. apply Hserved. lia.
Defined.

(** Forced from the desk with validation switched off: the update runs. *)
Lemma scenario_forced_from_ui :
  get_gstin_status (H := sample_services active_reply)
    sample_gstin None 1 1 validation_off_world =
  (create_or_update_gstin_status (H := sample_services active_reply)
     sample_gstin None None None true false validation_off_world, []).
Proof.
  apply (get_gstin_status_forced_from_ui (H := sample_services active_reply)
           validation_off_world sample_gstin None 1 1).
  - discriminate.
  - lia.
  - lia.
Defined.

(** A first-time GSTIN on a transaction dated before its registration:
    the lookup enqueues, the job stores the record and logs the date. *)
Lemma scenario_background_job :
  exists j,
    get_gstin_status (H := sample_services active_reply)
      sample_gstin (Some (mkdate 2018 1 1)) 0 0 (sample_world ∅)
      = (Returned None, sample_world ∅, [j]) /\
    exists doc w1,
      run_job (H := sample_services active_reply) j (sample_world ∅)
        = (Returned (Some doc), w1) /\
      w_db w1 !! sample_gstin = Some doc /\
      last (w_log w1) =
        Some (LogError "Invalid Party GSTIN"
                (Body (MsgRegisteredOn (mkdate 2018 7 1) (Some sample_gstin)))) /\
      w_message_log w1 = [].
Proof.
  destruct (get_gstin_status_in_background (H := sample_services active_reply)
              (sample_world ∅) sample_gstin (mkdate 2018 1 1) 0)
    as (j & Hrun & _ & _ & Hjob).
  - discriminate.
  - right. reflexivity.
  - exists j. split; [exact Hrun |].
    apply (Hjob (sample_world ∅) active_payload (mkdate 2018 7 1));
      try reflexivity.
    intros d Hd. vm_compute in Hd. discriminate Hd.
Defined.

(** An unknown "88" ID with e-waybill disabled: nothing but the marker. *)
Lemma scenario_unknown_transporter_silent :
  validate_gst_transporter_id (H := sample_services no_reply)
    sample_transporter_id (sample_world ∅) =
  (Returned tt,
   set_log [Enter_create_or_update_gstin_status sample_transporter_id true]
     (sample_world ∅)).
Proof.
  apply (validate_gst_transporter_id_silent_without_e_waybill
           (H := sample_services no_reply) (sample_world ∅) sample_transporter_id).
  - discriminate.
  - reflexivity.
  - left. exists "AABCM9407D1ZS". reflexivity.
  - left. reflexivity.
Defined.

(** The e-waybill API times out on an unknown "88" ID. *)
Lemma scenario_transporter_api_error :
  exists w',
    validate_gst_transporter_id
      (H := sample_services_with no_reply no_reply (failing (OtherError "Timeout")))
      sample_transporter_id (connected_world ∅)
      = (Raised (OtherError "Timeout"), w') /\
    w_db w' = ∅ /\ w_cache w' = ∅ /\ w_message_log w' = [].
Proof.
  apply (validate_gst_transporter_id_propagates_api_error
           (H := sample_services_with no_reply no_reply
                   (failing (OtherError "Timeout")))
           (connected_world ∅) sample_transporter_id sample_company_gstin
           (OtherError "Timeout")).
  - discriminate.
  - left. split; [reflexivity |]. left. exists "AABCM9407D1ZS". reflexivity.
  - reflexivity.
  - reflexivity.
  - discriminate.
  - reflexivity.
Defined.

(** A transporter status recorded as Invalid is not checked again. *)
Lemma scenario_invalid_transporter_on_record :
  validate_gst_transporter_id
    (H := sample_services_with no_reply no_reply known_transporter_reply)
    sample_transporter_id
    (connected_world {[ sample_transporter_id := doc_invalid_transporter ]}) =
  (Returned tt,
   set_message_log
     [(MsgTransporterSeemsInactive sample_transporter_id, "orange")]
     (connected_world {[ sample_transporter_id := doc_invalid_transporter ]})).
Proof.
  apply (validate_gst_transporter_id_uses_record
           (H := sample_services_with no_reply no_reply known_transporter_reply)
           (connected_world {[ sample_transporter_id := doc_invalid_transporter ]})
           sample_transporter_id doc_invalid_transporter).
  - discriminate.
  - vm_compute; reflexivity.
  - right. reflexivity.
Defined.

(** A cancelled GSTIN used as transporter ID, unknown to the e-waybill
    API: recorded as Invalid, and the user is warned. *)
Lemma scenario_fallback_warns :
  exists doc w',
    validate_gst_transporter_id
      (H := sample_services_with no_reply no_reply unknown_transporter_reply)
      sample_gstin (connected_world {[ sample_gstin := doc_cancelled_2021 ]})
      = (Returned tt, w') /\
    w_db w' !! sample_gstin = Some doc /\
    transporter_id_status doc = Some "Invalid" /\
    registration_date doc = Some (mkdate 2018 7 1) /\
    w_cache w' = ∅ /\
    w_message_log w' = [(MsgTransporterSeemsInactive sample_gstin, "orange")].
Proof.
  apply (validate_gst_transporter_id_fallback_records
           (H := sample_services_with no_reply no_reply unknown_transporter_reply)
           (connected_world {[ sample_gstin := doc_cancelled_2021 ]})
           sample_gstin sample_company_gstin doc_cancelled_2021
           {| transin := None |}); first [reflexivity | discriminate].
Defined.

(** A record last refreshed in July 2023 looks fresh after a transporter
    lookup in November 2023. *)
Lemma scenario_transporter_lookup_postpones :
  exists doc w',
    update_transporter_id_status
      (H := sample_services_with no_reply no_reply known_transporter_reply)
      doc_blocked (connected_world {[ sample_gstin := doc_blocked ]})
      = (Returned tt, w') /\
    w_db w' !! sample_gstin = Some doc /\
    last_updated_on doc = Some (w_now w') /\
    is_status_refresh_required
      (H := sample_services_with no_reply no_reply known_transporter_reply)
      w' sample_gstin (Some (mkdate 2023 11 15)) = Some false.
Proof.
  destruct (update_transporter_id_status_postpones_refresh
              (H := sample_services_with no_reply no_reply known_transporter_reply)
              (connected_world {[ sample_gstin := doc_blocked ]})
              sample_gstin sample_company_gstin doc_blocked
              {| transin := Some sample_gstin |})
    as (doc & w' & Hrun & Hdb & _ & _ & Hlast & _ & Hfresh);
    try reflexivity; try discriminate; try (cbn; lia).
  - left. reflexivity.
  - exists doc, w'. repeat split; try assumption. apply Hfresh.
Defined.

Lemma scenario_store_well_keyed :
  store_well_keyed
    (w_db (snd (validate_gst_transporter_id
                  (H := sample_services_with no_reply no_reply
                          known_transporter_reply)
                  sample_transporter_id (connected_world ∅)))).
Proof.
  apply (store_stays_well_keyed
           (H := sample_services_with no_reply no_reply known_transporter_reply)
           (connected_world ∅)).
  intros name d Hd. vm_compute in Hd. discriminate Hd.
Defined.

Lemma scenario_record_survives :
  is_Some
    (w_db (snd (update_gstin_status (H := sample_services active_reply)
                  doc_blocked (sample_world {[ sample_gstin := doc_blocked ]})))
       !! sample_gstin).
Proof.
  apply (records_are_never_deleted (H := sample_services active_reply)
           (sample_world {[ sample_gstin := doc_blocked ]}) sample_gstin).
  exists doc_blocked. vm_compute; reflexivity.
Defined.

(** The e-invoice API reports a cancelled and blocked GSTIN. *)
Lemma scenario_einvoice_cancelled :
  exists doc w',
    create_or_update_gstin_status
      (H := sample_services_with no_reply cancelled_blocked_reply no_reply)
      sample_gstin None None None false false (connected_world ∅)
      = (Returned (Some doc), w') /\
    w_db w' !! sample_gstin = Some doc /\
    status doc = Some "Cancelled" /\
    is_blocked doc = BlkInt 1 /\
    w_log w' = [Enter_create_or_update_gstin_status sample_gstin false;
                CallEInvoiceAPI sample_company_gstin sample_gstin].
Proof.
  destruct (einvoice_record_is_normalised
              (H := sample_services_with no_reply cancelled_blocked_reply no_reply)
              (connected_world ∅) sample_gstin sample_company_gstin None
              {| DtReg := Some "01/07/2018"; DtDReg := Some "n/a";
                 Status := Some "CNL"; BlkStatus := Some "B" |})
    as (doc & w' & Hrun & Hdb & Hst & Hblk & _ & _ & Hlog & _);
    try reflexivity; try discriminate.
  exists doc, w'. split; [exact Hrun |]. split; [exact Hdb |].
  split; [apply (Hst "CNL"); reflexivity |].
  split; [apply Hblk; reflexivity | exact Hlog].
Defined.

Lemma scenario_refresh_stays_required :
  is_status_refresh_required (H := sample_services no_reply)
    (set_now 1700086400 (sample_world ∅)) sample_gstin None = Some true.
Proof.
  apply (refresh_stays_required (H := sample_services no_reply)
           (sample_world ∅) sample_gstin None 1700086400).
  - cbn. lia.
  - reflexivity.
Defined.
